(** * SchwabPy: the request path of [schwabpy/client.py] and the URL helper
      of [schwabpy/utils.py], embedded and checked against the specification.

    Python [str] values are modelled by the string of their UTF-8 bytes,
    Python [int] by [Z], a [dict] that is only looked up by a gmap and a
    [dict] whose iteration order reaches the output by an association list.
    Logging calls have no effect on results and are left out. *)

From Stdlib Require Import ZArith List Bool Ascii String Lia.
From stdpp Require Import base option gmap strings pretty.

Set Warnings "-register-all".
Local Open Scope string_scope.
Local Open Scope Z_scope.
Local Open Scope list_scope.

(** ** Python values that cross the API boundary *)

(** Scalars accepted as query parameter values ([Dict[str, Any]]). *)
Inductive pyval : Type :=
| PNone
| PStr (s : string)
| PInt (n : Z)
| PBool (b : bool).

(** [str(v)] *)
Definition py_str (v : pyval) : string :=
  match v with
  | PNone => "None"
  | PStr s => s
  | PInt n => pretty n
  | PBool true => "True"
  | PBool false => "False"
  end.

(** [v is not None] *)
Definition is_not_None (v : pyval) : bool :=
  match v with PNone => false | _ => true end.

(** ** String helpers of the Python runtime *)

Module PyStr.

(** [s.lstrip(c)] for a one-character strip set. *)
Fixpoint lstrip (c : ascii) (s : string) : string :=
  match s with
  | EmptyString => EmptyString
  | String a s' => if Ascii.eqb a c then lstrip c s' else s
  end.

(** [s.rstrip(c)] for a one-character strip set. *)
Fixpoint rstrip (c : ascii) (s : string) : string :=
  match s with
  | EmptyString => EmptyString
  | String a s' =>
      match rstrip c s' with
      | EmptyString => if Ascii.eqb a c then EmptyString else String a EmptyString
      | r => String a r
      end
  end.

(** [c * n] *)
Fixpoint replicate_char (n : nat) (c : ascii) : string :=
  match n with
  | O => EmptyString
  | S k => String c (replicate_char k c)
  end.

(** [c in s] for a character [c]. *)
Fixpoint contains (c : ascii) (s : string) : bool :=
  match s with
  | EmptyString => false
  | String a s' => Ascii.eqb a c || contains c s'
  end.

(** [s.startswith(c)] and [s.endswith(c)] for a character [c]. *)
Definition starts_with (c : ascii) (s : string) : bool :=
  match s with
  | String a _ => Ascii.eqb a c
  | EmptyString => false
  end.

Fixpoint ends_with (c : ascii) (s : string) : bool :=
  match s with
  | EmptyString => false
  | String a EmptyString => Ascii.eqb a c
  | String _ s' => ends_with c s'
  end.

(** [sep.join(l)] *)
Fixpoint join (sep : string) (l : list string) : string :=
  match l with
  | [] => EmptyString
  | [x] => x
  | x :: rest => x +:+ sep +:+ join sep rest
  end.

(** [s.split(c)] for a one-character separator: never returns the empty
    list, [''.split(c) == ['']]. *)
Fixpoint split (c : ascii) (s : string) : list string :=
  match s with
  | EmptyString => [EmptyString]
  | String a s' =>
      if Ascii.eqb a c then EmptyString :: split c s'
      else match split c s' with
           | [] => [String a EmptyString]
           | w :: ws => String a w :: ws
           end
  end.

End PyStr.

(** ** [urllib.parse]: the part of the standard library [build_url] calls *)

Module Urllib.

Definition is_upper (a : ascii) : bool :=
  let n := nat_of_ascii a in (65 <=? n)%nat && (n <=? 90)%nat.
Definition is_lower (a : ascii) : bool :=
  let n := nat_of_ascii a in (97 <=? n)%nat && (n <=? 122)%nat.
Definition is_digit (a : ascii) : bool :=
  let n := nat_of_ascii a in (48 <=? n)%nat && (n <=? 57)%nat.

(** [_ALWAYS_SAFE]: letters, digits and [_.-~]. *)
Definition always_safe (a : ascii) : bool :=
  is_upper a || is_lower a || is_digit a
  || Ascii.eqb a "_" || Ascii.eqb a "." || Ascii.eqb a "-" || Ascii.eqb a "~".

(** One upper-case hexadecimal digit, as ['{:02X}'] prints it. *)
Definition hex_digit (n : nat) : ascii :=
  if (n <? 10)%nat then ascii_of_nat (48 + n) else ascii_of_nat (55 + n).

(** [quote_plus] on one byte with [safe='']: safe bytes stay, a space
    becomes [+], every other byte becomes [%XX]. *)
Definition quote_byte (a : ascii) : string :=
  if always_safe a then String a EmptyString
  else if Ascii.eqb a " " then "+"
  else let n := nat_of_ascii a in
       String "%" (String (hex_digit (n / 16)) (String (hex_digit (n mod 16)) EmptyString)).

(** [quote_plus(s)] *)
Fixpoint quote_plus (s : string) : string :=
  match s with
  | EmptyString => EmptyString
  | String a s' => quote_byte a +:+ quote_plus s'
  end.

(** One [k=v] element of the list [urlencode] joins. *)
Definition encode_pair (kv : string * pyval) : string :=
  quote_plus (fst kv) +:+ "=" +:+ quote_plus (py_str (snd kv)).

(** [urlencode(query)] with the default [doseq=False]. *)
Definition urlencode (query : list (string * pyval)) : string :=
  PyStr.join "&" (map encode_pair query).

End Urllib.

(** ** [schwabpy/utils.py] *)

(** The dict comprehension [{k: v for k, v in params.items() if v is not None}]. *)
Definition filtered_params (params : list (string * pyval)) : list (string * pyval) :=
  List.filter (fun kv => is_not_None (snd kv)) params.

(** [build_url(base_url, endpoint, params=None)].  [params] is [None] or a
    dict in insertion order; an empty dict is falsy like [None]. *)
Definition build_url (base_url endpoint : string)
    (params : option (list (string * pyval))) : string :=
  let url := PyStr.rstrip "/" base_url +:+ "/" +:+ PyStr.lstrip "/" endpoint in
  match params with
  | None | Some [] => url
  | Some ps =>
      match filtered_params ps with
      | [] => url
      | fp => url +:+ "?" +:+ Urllib.urlencode fp
      end
  end.

(** ** JSON values, as [response.json()] returns them *)

(** Numbers are integers here; an object is the resulting [dict], keys unique. *)
Inductive json : Type :=
| JNull
| JBool (b : bool)
| JNum (n : Z)
| JStr (s : string)
| JArr (items : list json)
| JObj (fields : list (string * json)).

(** [{}] *)
Definition empty_dict : json := JObj [].

(** [d[key]] on the fields of a dict. *)
Fixpoint dict_get (key : string) (fields : list (string * json)) : option json :=
  match fields with
  | [] => None
  | (k, v) :: rest => if String.eqb k key then Some v else dict_get key rest
  end.

(** [p in s] on two [str]: substring test. *)
Fixpoint is_substring (p s : string) : bool :=
  String.prefix p s
  || match s with
     | EmptyString => false
     | String _ s' => is_substring p s'
     end.

(** [x == JStr key] for a list element [x]. *)
Definition json_is_str (key : string) (x : json) : bool :=
  match x with JStr s => String.eqb s key | _ => false end.

(** ** The objects [SchwabClient] works with *)

(** What [_handle_response] reads off a [requests.Response]: [json_body] is
    the result of [response.json()], [None] when it raises [ValueError].
    These are the two outcomes the code provides for; another exception of
    [json()] (a [RecursionError] on a deeply nested body) has no place in
    the record. *)
Record Response : Type := mkResponse {
  status_code : Z;
  content : string;
  text : string;
  json_body : option json
}.

(** The exception classes of [schwabpy.exceptions] raised by the client. *)
Inductive api_kind : Type :=
| APIError
| BadRequestError
| UnauthorizedError
| ForbiddenError
| NotFoundError
| RateLimitError
| ServerError.

(** Modelled from the spec: [schwabpy/exceptions.py] (ErrorRecord, section 3:
    kind, message, optional HTTP status code, optional raw response), built
    by the calls [Kind(message, status_code, response)] and [APIError(message)].
    The message is whatever the call passes, a [str] or a JSON value. *)
Record api_error : Type := mkApiError {
  kind : api_kind;
  message : json;
  err_status_code : option Z;
  err_response : option Response
}.

(** Every exception that can travel through [_request]. *)
Inductive exn : Type :=
| ExAPI (e : api_error)
| ExAuthentication (msg : string)
| ExTimeout (e : string)
| ExConnectionError (e : string)
| ExRequestException (e : string)
| ExTypeError
| ExAttributeError
| ExOther (name : string).

Inductive Outcome (A : Type) : Type :=
| Return (a : A)
| Raise (e : exn).
Arguments Return {A} a.
Arguments Raise {A} e.

(** The keyword arguments of [Session.request] as [_request] passes them. *)
Record OutReq : Type := mkOutReq {
  req_method : string;
  req_url : string;
  req_params : option (list (string * pyval));
  req_json : option json;
  req_headers : gmap string string;
  req_timeout : Z;
  req_kwargs : list (string * pyval)
}.

(** [**kwargs] of [_request]: the optional [headers] entry, a dict, popped
    by the code, and the rest, forwarded to [Session.request].  The rest
    cannot hold [method], [endpoint], [params] or [json], which Python binds
    to the parameters of [_request]. *)
Record Kwargs : Type := mkKwargs {
  kw_headers : option (gmap string string);
  kw_rest : list (string * pyval)
}.

Definition no_kwargs : Kwargs := mkKwargs None [].

(** Whether the rest of [**kwargs] repeats a keyword that [_request]
    itself passes to [Session.request]: with [headers] popped and the
    parameter names out of reach, [url] and [timeout] are the two that can.
    Python then raises [TypeError] (multiple values for a keyword argument)
    when it evaluates the call, before [Session.request] runs. *)
Definition kwargs_collide (kwargs : Kwargs) : bool :=
  existsb (fun kv => String.eqb (fst kv) "url" || String.eqb (fst kv) "timeout")
    (kw_rest kwargs).

(** The collaborators are oracles: [auth n] is what the [n]-th call of
    [OAuthManager.get_access_token] does, [_session n req] what the [n]-th
    call of [Session.request] does with [req] (counting from 0). *)
Record SchwabClient : Type := mkClient {
  client_id : string;
  client_secret : string;
  redirect_uri : string;
  timeout : Z;
  auth : nat -> Outcome string;
  _session : nat -> OutReq -> Outcome Response
}.

(** ** Effects: a trace of collaborator calls, and exceptions *)

Inductive event : Type :=
| CallGetAccessToken
| CallSessionRequest (req : OutReq).

Definition is_transport (ev : event) : bool :=
  match ev with CallSessionRequest _ => true | _ => false end.
Definition is_token (ev : event) : bool :=
  match ev with CallGetAccessToken => true | _ => false end.

(** Number of transport attempts, resp. token acquisitions, in a trace. *)
Definition transport_calls (tr : list event) : nat := length (List.filter is_transport tr).
Definition token_calls (tr : list event) : nat := length (List.filter is_token tr).

Definition Py (A : Type) : Type := list event -> Outcome A * list event.

Definition ret {A} (a : A) : Py A := fun tr => (Return a, tr).
Definition raise {A} (e : exn) : Py A := fun tr => (Raise e, tr).
Definition bind {A B} (m : Py A) (k : A -> Py B) : Py B :=
  fun tr => match m tr with
            | (Return a, tr') => k a tr'
            | (Raise e, tr') => (Raise e, tr')
            end.
(** [try: body except ...: handler] *)
Definition try_except {A} (body : Py A) (handler : exn -> Py A) : Py A :=
  fun tr => match body tr with
            | (Return a, tr') => (Return a, tr')
            | (Raise e, tr') => handler e tr'
            end.
Definition lift {A} (o : Outcome A) : Py A := fun tr => (o, tr).

Declare Scope py_scope.
Delimit Scope py_scope with py.
Notation "x <- m ;; k" := (bind m (fun x => k))
  (at level 100, m at next level, right associativity) : py_scope.
Local Open Scope py_scope.

(** [self.auth.get_access_token()] *)
Definition auth_get_access_token (self : SchwabClient) : Py string :=
  fun tr => (auth self (token_calls tr), (tr ++ [CallGetAccessToken])%list).

(** [self._session.request] called with the keyword arguments [req] *)
Definition session_request (self : SchwabClient) (req : OutReq) : Py Response :=
  fun tr => (_session self (transport_calls tr) req, (tr ++ [CallSessionRequest req])%list).

(** ** [schwabpy/client.py] *)

Definition obind {A B} (o : Outcome A) (k : A -> Outcome B) : Outcome B :=
  match o with
  | Return a => k a
  | Raise e => Raise e
  end.

(** [key in x] for a value [x] that came out of [response.json()]: key
    membership on a dict, element membership on a list, substring test on a
    [str], [TypeError] on [None], a [bool] or a number. *)
Definition py_in (key : string) (x : json) : Outcome bool :=
  match x with
  | JObj fields => Return (bool_decide (is_Some (dict_get key fields)))
  | JArr items => Return (existsb (json_is_str key) items)
  | JStr s => Return (is_substring key s)
  | JNull | JBool _ | JNum _ => Raise ExTypeError
  end.

(** [x[key]] with a [str] key: defined on a dict only. *)
Definition py_getitem (key : string) (x : json) : Outcome json :=
  match x with
  | JObj fields =>
      match dict_get key fields with
      | Some v => Return v
      | None => Raise (ExOther "KeyError")
      end
  | _ => Raise ExTypeError
  end.

(** [bool(s)] for a [str]. *)
Definition str_truthy (s : string) : bool := negb (String.eqb s "").

(** [f"API error {response.status_code}"] *)
Definition default_error_msg (response : Response) : json :=
  JStr ("API error " +:+ pretty (status_code response)).

(** Lines 271-279 of [_handle_response]: the message of an error response. *)
Definition error_msg_of (response : Response) : Outcome json :=
  let error_msg := default_error_msg response in
  match json_body response with
  | Some error_data =>
      obind (py_in "message" error_data) (fun has_message =>
        if has_message then py_getitem "message" error_data
        else obind (py_in "error" error_data) (fun has_error =>
          if has_error then py_getitem "error" error_data
          else Return error_msg))
  | None =>
      Return (if str_truthy (text response) then JStr (text response) else error_msg)
  end.

(** Lines 281-295: the exception class picked from the status code. *)
Definition kind_of_status (sc : Z) : api_kind :=
  if (sc =? 400)%Z then BadRequestError
  else if (sc =? 401)%Z then UnauthorizedError
  else if (sc =? 403)%Z then ForbiddenError
  else if (sc =? 404)%Z then NotFoundError
  else if (sc =? 429)%Z then RateLimitError
  else if (sc >=? 500)%Z then ServerError
  else APIError.

(** [SchwabClient._handle_response(response)] *)
Definition _handle_response (response : Response) : Outcome json :=
  let sc := status_code response in
  if (200 <=? sc)%Z && (sc <? 300)%Z then
    if (sc =? 204)%Z || negb (str_truthy (content response)) then Return empty_dict
    else match json_body response with
         | Some data => Return data
         | None => Return (JStr (text response))
         end
  else
    obind (error_msg_of response) (fun error_msg =>
      Raise (ExAPI (mkApiError (kind_of_status sc) error_msg (Some sc) (Some response)))).

(** [SchwabClient.BASE_URL] *)
Definition BASE_URL : string := "https://api.schwabapi.com".

Section Client.

(** [urllib.parse.urljoin], a standard-library function the request path
    only passes its result along. *)
Variable urljoin : string -> string -> string.

(** The [except] clauses of [_request], in source order; any other
    exception is not caught. *)
Definition request_handler (self : SchwabClient) (e : exn) : Py json :=
  match e with
  | ExTimeout _ =>
      raise (ExAPI (mkApiError APIError
        (JStr ("Request timeout after " +:+ pretty (timeout self) +:+ " seconds")) None None))
  | ExConnectionError e =>
      raise (ExAPI (mkApiError APIError (JStr ("Connection error: " +:+ e)) None None))
  | ExRequestException e =>
      raise (ExAPI (mkApiError APIError (JStr ("Request failed: " +:+ e)) None None))
  | _ => raise e
  end.

(** The headers dict of lines 195-199. *)
Definition request_headers (access_token : string) (kwargs : Kwargs) : gmap string string :=
  let headers : gmap string string := {[ "Authorization" := "Bearer " +:+ access_token ]} in
  match kw_headers kwargs with
  | Some h => h ∪ headers
  | None => headers
  end.

(** [SchwabClient._request(method, endpoint, params=None, json=None, **kwargs)] *)
Definition _request (self : SchwabClient) (method endpoint : string)
    (params : option (list (string * pyval))) (json_arg : option json)
    (kwargs : Kwargs) : Py json :=
  access_token <-
    try_except (auth_get_access_token self)
      (fun e => match e with
                | ExAuthentication _ => raise e
                | _ => raise e
                end) ;;
  let url := urljoin BASE_URL (PyStr.lstrip "/" endpoint) in
  let headers := request_headers access_token kwargs in
  try_except
    (response <-
       (if kwargs_collide kwargs then raise ExTypeError
        else session_request self
               (mkOutReq method url params json_arg headers (timeout self) (kw_rest kwargs))) ;;
     lift (_handle_response response))
    (request_handler self).

(** The public verbs. *)
Definition get (self : SchwabClient) (endpoint : string)
    (params : option (list (string * pyval))) (kwargs : Kwargs) : Py json :=
  _request self "GET" endpoint params None kwargs.

Definition post (self : SchwabClient) (endpoint : string)
    (json_arg : option json) (kwargs : Kwargs) : Py json :=
  _request self "POST" endpoint None json_arg kwargs.

Definition put (self : SchwabClient) (endpoint : string)
    (json_arg : option json) (kwargs : Kwargs) : Py json :=
  _request self "PUT" endpoint None json_arg kwargs.

Definition delete (self : SchwabClient) (endpoint : string) (kwargs : Kwargs) : Py json :=
  _request self "DELETE" endpoint None None kwargs.

(** The request [_request] hands to the transport once it holds a token. *)
Definition outgoing (self : SchwabClient) (method endpoint : string)
    (params : option (list (string * pyval))) (json_arg : option json)
    (kwargs : Kwargs) (access_token : string) : OutReq :=
  mkOutReq method (urljoin BASE_URL (PyStr.lstrip "/" endpoint)) params json_arg
    (request_headers access_token kwargs) (timeout self) (kw_rest kwargs).


End Client.

(** The attributes a [SchwabClient] instance has: those [__init__] sets,
    then what the class body defines, in source order. *)
Definition SchwabClient_attributes : list string :=
  [ "client_id"; "client_secret"; "redirect_uri"; "timeout"; "auth"; "_session";
    "accounts"; "market_data"; "orders";
    "BASE_URL"; "__init__"; "authenticate"; "authorize_from_callback";
    "authorize_from_code"; "_request"; "_handle_response";
    "get"; "post"; "put"; "delete"; "__repr__" ].

(** [getattr(client, name)]: [AttributeError] for a name the object lacks. *)
Definition getattr (name : string) : Outcome unit :=
  if existsb (String.eqb name) SchwabClient_attributes then Return tt
  else Raise ExAttributeError.

(** ** The doubles of [tests/unit/test_client.py] *)

(** [mock_response(200, {'data': 'ok'})]: the factory sets [content] to
    [b'content'], [text] to [str(json_data)] and lets [json()] return the data. *)
Definition ok_response : Response :=
  mkResponse 200 "content" "{'data': 'ok'}" (Some (JObj [("data", JStr "ok")])).

(** [mock_response(500, None, 'Internal Server Error')]: [json()] raises [ValueError]. *)
Definition server_error_response : Response :=
  mkResponse 500 "content" "Internal Server Error" None.

(** [Mock(side_effect=[first, second])] as [Session.request]: the first two
    calls follow the list, later calls raise [StopIteration]. *)
Definition side_effect (script : list (Outcome Response)) : nat -> OutReq -> Outcome Response :=
  fun n _ => nth n script (Raise (ExOther "StopIteration")).

(** [Mock(side_effect=exc)] or [Mock(return_value=r)]: every call alike. *)
Definition always (o : Outcome Response) : nat -> OutReq -> Outcome Response :=
  fun _ _ => o.

(** The [client] fixture: mocked auth handing out ['fake_token'], default
    timeout of 30 seconds, and the given [Session.request] double. *)
Definition test_client (session : nat -> OutReq -> Outcome Response) : SchwabClient :=
  mkClient "test_id" "test_secret" "https://127.0.0.1" 30
    (fun _ => Return "fake_token") session.

(** A stand-in for [urljoin] on the paths the tests use: base, a slash, the path. *)
Definition simple_urljoin (base rel : string) : string := base +:+ "/" +:+ rel.

(** The outgoing request of [client.<verb>('/test')] in the tests. *)
Definition test_req (method endpoint : string) (json_arg : option json) : OutReq :=
  mkOutReq method (simple_urljoin BASE_URL endpoint) None json_arg
    {[ "Authorization" := "Bearer fake_token" ]} 30 [].

(** ** What the specification says, where it is compared with the code *)

(** The message rule in the words of the specification: the [message]
    field if present, else the [error] field, else the raw response text,
    else the generic string. *)
Definition claimed_error_msg (response : Response) : json :=
  let fields := match json_body response with
                | Some (JObj fields) => fields
                | _ => []
                end in
  match dict_get "message" fields with
  | Some m => m
  | None =>
      match dict_get "error" fields with
      | Some m => m
      | None =>
          if str_truthy (text response) then JStr (text response)
          else default_error_msg response
      end
  end.

(** The query parameters [build_url] keeps: those of a given dict whose
    value is not [None]. *)
Definition kept_params (params : option (list (string * pyval))) : list (string * pyval) :=
  match params with
  | None => []
  | Some ps => List.filter (fun kv => is_not_None (snd kv)) ps
  end.

(** The three characters that delimit a query string. *)
Definition reserved (c : ascii) : Prop := c = "&"%char \/ c = "="%char \/ c = "?"%char.

(** ** The rest of [schwabpy/utils.py] *)

(** [urllib.parse.quote] with [safe=''], and [unquote] to read it back. *)
Module Quote.

(** [quote] on one byte: unreserved bytes stay, every other byte, the
    space included, becomes [%XX]. *)
Definition quote_byte (a : ascii) : string :=
  if Urllib.always_safe a then String a EmptyString
  else let n := nat_of_ascii a in
       String "%" (String (Urllib.hex_digit (n / 16))
                     (String (Urllib.hex_digit (n mod 16)) EmptyString)).

(** [quote(s, safe='')] *)
Fixpoint quote (s : string) : string :=
  match s with
  | EmptyString => EmptyString
  | String a s' => quote_byte a +:+ quote s'
  end.

(** The value of a hexadecimal digit, either case, as [_hextobyte] reads it. *)
Definition hex_value (a : ascii) : option nat :=
  let n := nat_of_ascii a in
  if (48 <=? n)%nat && (n <=? 57)%nat then Some (n - 48)%nat
  else if (65 <=? n)%nat && (n <=? 70)%nat then Some (n - 55)%nat
  else if (97 <=? n)%nat && (n <=? 102)%nat then Some (n - 87)%nat
  else None.

(** [unquote_to_bytes(s)]: [%XX] with two hexadecimal digits is one byte,
    a [%] not followed by two such digits stays as it is. *)
Fixpoint unquote (s : string) : string :=
  match s with
  | EmptyString => EmptyString
  | String a s' =>
      match s' with
      | String h1 (String h2 rest) =>
          if Ascii.eqb a "%" then
            match hex_value h1, hex_value h2 with
            | Some x, Some y => String (ascii_of_nat (16 * x + y)) (unquote rest)
            | _, _ => String a (unquote s')
            end
          else String a (unquote s')
      | _ => String a (unquote s')
      end
  end.

(** [s.replace('+', ' ')] *)
Fixpoint plus_to_space (s : string) : string :=
  match s with
  | EmptyString => EmptyString
  | String a s' => String (if Ascii.eqb a "+" then " "%char else a) (plus_to_space s')
  end.

(** [unquote_plus(s)] *)
Definition unquote_plus (s : string) : string := unquote (plus_to_space s).

(** Number of bytes [quote] has to escape. *)
Fixpoint escaped_bytes (s : string) : nat :=
  match s with
  | EmptyString => O
  | String a s' => ((if Urllib.always_safe a then 0 else 1) + escaped_bytes s')%nat
  end.

End Quote.

(** [url_encode(value)] *)
Definition url_encode (value : string) : string := Quote.quote value.

(** [str] methods on ASCII text.  Python works on code points; on a string
    whose bytes are all below 128 the two coincide. *)
Module PyText.

(** [s.isascii()] *)
Fixpoint is_ascii (s : string) : bool :=
  match s with
  | EmptyString => true
  | String a s' => (nat_of_ascii a <? 128)%nat && is_ascii s'
  end.

Definition upper_char (a : ascii) : ascii :=
  if Urllib.is_lower a then ascii_of_nat (nat_of_ascii a - 32) else a.

(** [s.upper()] *)
Fixpoint upper (s : string) : string :=
  match s with
  | EmptyString => EmptyString
  | String a s' => String (upper_char a) (upper s')
  end.

(** [c.isspace()] below 128: tab to carriage return, the four separators
    28 to 31, and the space. *)
Definition is_space (a : ascii) : bool :=
  let n := nat_of_ascii a in
  ((9 <=? n)%nat && (n <=? 13)%nat) || ((28 <=? n)%nat && (n <=? 32)%nat).

(** [s.lstrip()] *)
Fixpoint lstrip_space (s : string) : string :=
  match s with
  | EmptyString => EmptyString
  | String a s' => if is_space a then lstrip_space s' else s
  end.

(** [s.rstrip()] *)
Fixpoint rstrip_space (s : string) : string :=
  match s with
  | EmptyString => EmptyString
  | String a s' =>
      match rstrip_space s' with
      | EmptyString => if is_space a then EmptyString else String a EmptyString
      | r => String a r
      end
  end.

(** [s.strip()] *)
Definition strip (s : string) : string := rstrip_space (lstrip_space s).

(** First and last character tests used to state what [strip] leaves. *)
Definition starts_with_space (s : string) : bool :=
  match s with
  | String a _ => is_space a
  | EmptyString => false
  end.

Fixpoint ends_with_space (s : string) : bool :=
  match s with
  | EmptyString => false
  | String a EmptyString => is_space a
  | String _ s' => ends_with_space s'
  end.

(** Whether some character is a lower-case ASCII letter. *)
Fixpoint has_lower (s : string) : bool :=
  match s with
  | EmptyString => false
  | String a s' => Urllib.is_lower a || has_lower s'
  end.

End PyText.

(** [format_symbol(symbol)] *)
Definition format_symbol (symbol : string) : string :=
  PyText.strip (PyText.upper symbol).

(** [base64.b64encode] and [b64decode] on byte strings. *)
Module Base64.

Definition alphabet : string :=
  "ABCDEFGHIJKLMNOPQRSTUVWXYZabcdefghijklmnopqrstuvwxyz0123456789+/".

(** The character of a six-bit value. *)
Definition b64_char (n : nat) : ascii :=
  match String.get n alphabet with
  | Some c => c
  | None => "="%char
  end.

(** [b64encode(s)]: three bytes give four characters; one or two bytes
    left at the end are padded with [=]. *)
Fixpoint b64encode (s : string) : string :=
  match s with
  | EmptyString => EmptyString
  | String a EmptyString =>
      let x := nat_of_ascii a in
      String (b64_char (x / 4)) (String (b64_char (x mod 4 * 16)) "==")
  | String a (String b EmptyString) =>
      let x := nat_of_ascii a in
      let y := nat_of_ascii b in
      String (b64_char (x / 4))
        (String (b64_char (x mod 4 * 16 + y / 16))
           (String (b64_char (y mod 16 * 4)) "="))
  | String a (String b (String c rest)) =>
      let x := nat_of_ascii a in
      let y := nat_of_ascii b in
      let z := nat_of_ascii c in
      String (b64_char (x / 4))
        (String (b64_char (x mod 4 * 16 + y / 16))
           (String (b64_char (y mod 16 * 4 + z / 64))
              (String (b64_char (z mod 64)) (b64encode rest))))
  end.

(** The six-bit value of an alphabet character. *)
Definition b64_value (c : ascii) : option nat :=
  let n := nat_of_ascii c in
  if (65 <=? n)%nat && (n <=? 90)%nat then Some (n - 65)%nat
  else if (97 <=? n)%nat && (n <=? 122)%nat then Some (n - 71)%nat
  else if (48 <=? n)%nat && (n <=? 57)%nat then Some (n + 4)%nat
  else if (n =? 43)%nat then Some 62%nat
  else if (n =? 47)%nat then Some 63%nat
  else None.

(** [b64decode(s)] on canonical input (groups of four alphabet characters,
    padding only at the end): [None] on any other text. *)
Fixpoint b64decode (s : string) : option string :=
  match s with
  | EmptyString => Some EmptyString
  | String c1 (String c2 (String c3 (String c4 rest))) =>
      match b64_value c1, b64_value c2 with
      | Some v1, Some v2 =>
          let b1 := ascii_of_nat (v1 * 4 + v2 / 16) in
          if Ascii.eqb c3 "=" then
            if Ascii.eqb c4 "=" then
              match rest with
              | EmptyString => Some (String b1 EmptyString)
              | _ => None
              end
            else None
          else
            match b64_value c3 with
            | Some v3 =>
                let b2 := ascii_of_nat (v2 mod 16 * 16 + v3 / 4) in
                if Ascii.eqb c4 "=" then
                  match rest with
                  | EmptyString => Some (String b1 (String b2 EmptyString))
                  | _ => None
                  end
                else
                  match b64_value c4, b64decode rest with
                  | Some v4, Some tail =>
                      Some (String b1 (String b2
                              (String (ascii_of_nat (v3 mod 4 * 64 + v4)) tail)))
                  | _, _ => None
                  end
            | None => None
            end
      | _, _ => None
      end
  | _ => None
  end.

(** Whether every character is of the alphabet or the padding [=]. *)
Fixpoint is_b64_text (s : string) : bool :=
  match s with
  | EmptyString => true
  | String c s' => (bool_decide (is_Some (b64_value c)) || Ascii.eqb c "=") && is_b64_text s'
  end.

End Base64.

(** [encode_credentials(client_id, client_secret)] *)
Definition encode_credentials (client_id client_secret : string) : string :=
  Base64.b64encode (client_id +:+ ":" +:+ client_secret).

(** [s.partition(':')] without the separator: the text before the first
    colon and the text after it. *)
Fixpoint partition_colon (s : string) : string * string :=
  match s with
  | EmptyString => (EmptyString, EmptyString)
  | String a s' =>
      if Ascii.eqb a ":" then (EmptyString, s')
      else let '(u, v) := partition_colon s' in (String a u, v)
  end.

(** ** More of [schwabpy/client.py]: what callers see *)

(** The JSON bodies on which the membership tests of [_handle_response]
    raise [TypeError]: a scalar, a [str] that holds [message] or [error] as
    a substring, a list that holds one of the two as an element. *)
Definition type_error_body (d : json) : bool :=
  match d with
  | JNull | JBool _ | JNum _ => true
  | JStr s => is_substring "message" s || is_substring "error" s
  | JArr items => existsb (json_is_str "message") items || existsb (json_is_str "error") items
  | JObj _ => false
  end.

(** [response.json()] did one of the two things [json_body] records: it
    returned a value, or it raised [ValueError].  Statements about every
    response are made under this condition. *)
Definition json_returns_or_value_error (r : Response) : Prop :=
  json_body r = None \/ exists d, json_body r = Some d.



(** ** Iteration and dict assignment of the Python runtime *)

(** [for x in v]: the items of a list, the keys of a dict, the characters
    of a [str] (bytes here, the same on ASCII text); [TypeError] otherwise. *)
Definition py_iter (v : json) : Outcome (list json) :=
  match v with
  | JArr items => Return items
  | JObj fields => Return (map (fun kv => JStr (fst kv)) fields)
  | JStr s => Return (map (fun c => JStr (String c EmptyString)) (list_ascii_of_string s))
  | JNull | JBool _ | JNum _ => Raise ExTypeError
  end.

(** [[f(x) for x in items]], stopping at the first exception. *)
Fixpoint map_outcome {A B : Type} (f : A -> Outcome B) (items : list A) : Outcome (list B) :=
  match items with
  | [] => Return []
  | x :: rest =>
      obind (f x) (fun y => obind (map_outcome f rest) (fun ys => Return (y :: ys)))
  end.

(** [d[key] = v] on a dict in insertion order: an existing key keeps its
    place, a new key goes last. *)
Fixpoint dict_set {V : Type} (key : string) (v : V) (fields : list (string * V))
    : list (string * V) :=
  match fields with
  | [] => [(key, v)]
  | (k, w) :: rest =>
      if String.eqb k key then (k, v) :: rest else (k, w) :: dict_set key v rest
  end.

(** [if value: params[key] = value] for an optional [str] argument: [None]
    and the empty string are both falsy. *)
Definition set_if_truthy (key : string) (value : option string)
    (params : list (string * pyval)) : list (string * pyval) :=
  match value with
  | Some s => if str_truthy s then dict_set key (PStr s) params else params
  | None => params
  end.

(** [key in params] and [params[key]] on a parameter dict. *)
Fixpoint params_get (key : string) (params : list (string * pyval)) : option pyval :=
  match params with
  | [] => None
  | (k, v) :: rest => if String.eqb k key then Some v else params_get key rest
  end.

(** ** [schwabpy/accounts.py] *)

Module Accounts.
Section Methods.

Variable urljoin : string -> string -> string.

(** [schwabpy/models.py] is not part of the sources at hand: the model
    classes and their [from_dict] constructors are parameters. *)
Variables Account Order : Type.
Variable Account_from_dict : json -> Outcome Account.
Variable Order_from_dict : json -> Outcome Order.

(** [Accounts.get_account_numbers()] *)
Definition get_account_numbers (session : SchwabClient) : Py json :=
  let endpoint := "/trader/v1/accounts/accountNumbers" in
  get urljoin session endpoint None no_kwargs.

(** [Accounts.get_accounts(fields=None)]: [params] is built and not passed on. *)
Definition get_accounts (session : SchwabClient) (fields : option string) : Py (list Account) :=
  let params := set_if_truthy "fields" fields [] in
  let endpoint := "/trader/v1/accounts" in
  response <- get urljoin session endpoint None no_kwargs ;;
  lift (obind (py_iter response) (map_outcome Account_from_dict)).

(** [Accounts.get_account(account_number, fields=None)]: [params] is built
    and not passed on. *)
Definition get_account (session : SchwabClient) (account_number : string)
    (fields : option string) : Py Account :=
  let params := set_if_truthy "fields" fields [] in
  let endpoint := "/trader/v1/accounts/" +:+ account_number in
  response <- get urljoin session endpoint None no_kwargs ;;
  lift (Account_from_dict response).

(** The [params] dict of [get_orders] and [get_all_orders]. *)
Definition orders_params (max_results : Z)
    (from_entered_time to_entered_time status : option string) : list (string * pyval) :=
  let params := [("maxResults", PInt max_results)] in
  let params := set_if_truthy "fromEnteredTime" from_entered_time params in
  let params := set_if_truthy "toEnteredTime" to_entered_time params in
  set_if_truthy "status" status params.

(** [Accounts.get_orders(account_number, max_results=3000, from_entered_time=None,
    to_entered_time=None, status=None)] *)
Definition get_orders (session : SchwabClient) (account_number : string) (max_results : Z)
    (from_entered_time to_entered_time status : option string) : Py (list Order) :=
  let params := orders_params max_results from_entered_time to_entered_time status in
  let endpoint := "/trader/v1/accounts/" +:+ account_number +:+ "/orders" in
  response <- get urljoin session endpoint (Some params) no_kwargs ;;
  lift (obind (py_iter response) (map_outcome Order_from_dict)).

(** [Accounts.get_order(account_number, order_id)] *)
Definition get_order (session : SchwabClient) (account_number order_id : string) : Py Order :=
  let endpoint := "/trader/v1/accounts/" +:+ account_number +:+ "/orders/" +:+ order_id in
  response <- get urljoin session endpoint None no_kwargs ;;
  lift (Order_from_dict response).

(** [Accounts.get_all_orders(max_results=3000, from_entered_time=None,
    to_entered_time=None, status=None)] *)
Definition get_all_orders (session : SchwabClient) (max_results : Z)
    (from_entered_time to_entered_time status : option string) : Py (list Order) :=
  let params := orders_params max_results from_entered_time to_entered_time status in
  let endpoint := "/trader/v1/orders" in
  response <- get urljoin session endpoint (Some params) no_kwargs ;;
  lift (obind (py_iter response) (map_outcome Order_from_dict)).

(** [Accounts.get_transactions(account_number, start_date, end_date,
    types=None, symbol=None)] *)
Definition get_transactions (session : SchwabClient) (account_number start_date end_date : string)
    (types symbol : option string) : Py json :=
  let params := [("startDate", PStr start_date); ("endDate", PStr end_date)] in
  let params := set_if_truthy "types" types params in
  let params := set_if_truthy "symbol" symbol params in
  let endpoint := "/trader/v1/accounts/" +:+ account_number +:+ "/transactions" in
  get urljoin session endpoint (Some params) no_kwargs.

(** [Accounts.get_transaction(account_number, transaction_id)] *)
Definition get_transaction (session : SchwabClient) (account_number transaction_id : string)
    : Py json :=
  let endpoint :=
    "/trader/v1/accounts/" +:+ account_number +:+ "/transactions/" +:+ transaction_id in
  get urljoin session endpoint None no_kwargs.

(** [Accounts.get_user_preference()] *)
Definition get_user_preference (session : SchwabClient) : Py json :=
  let endpoint := "/trader/v1/userPreference" in
  get urljoin session endpoint None no_kwargs.

End Methods.
End Accounts.

(** ** [schwabpy/orders.py] *)

Module Orders.

Section Methods.

Variable urljoin : string -> string -> string.

(** [Orders.place_order(account_number, order)] *)
Definition place_order (session : SchwabClient) (account_number : string) (order : json)
    : Py json :=
  let endpoint := "/trader/v1/accounts/" +:+ account_number +:+ "/orders" in
  post urljoin session endpoint (Some order) no_kwargs.

(** [Orders.replace_order(account_number, order_id, order)] *)
Definition replace_order (session : SchwabClient) (account_number order_id : string)
    (order : json) : Py json :=
  let endpoint := "/trader/v1/accounts/" +:+ account_number +:+ "/orders/" +:+ order_id in
  put urljoin session endpoint (Some order) no_kwargs.

(** [Orders.cancel_order(account_number, order_id)] *)
Definition cancel_order (session : SchwabClient) (account_number order_id : string) : Py json :=
  let endpoint := "/trader/v1/accounts/" +:+ account_number +:+ "/orders/" +:+ order_id in
  delete urljoin session endpoint no_kwargs.

(** [Orders.preview_order(account_number, order)] *)
Definition preview_order (session : SchwabClient) (account_number : string) (order : json)
    : Py json :=
  let endpoint := "/trader/v1/accounts/" +:+ account_number +:+ "/previewOrder" in
  post urljoin session endpoint (Some order) no_kwargs.

End Methods.

Section Builders.

(** Prices are Python floats; the builders only pass them to [str]. *)
Variable Float : Type.
Variable float_str : Float -> string.

(** [if price is not None: order[key] = str(price)] *)
Definition set_price (key : string) (price : option Float) (order : list (string * json))
    : list (string * json) :=
  match price with
  | Some p => dict_set key (JStr (float_str p)) order
  | None => order
  end.

(** One entry of [orderLegCollection]. *)
Definition order_leg (instruction quantity : json) (symbol asset_type : json) : json :=
  JObj [("instruction", instruction);
        ("quantity", quantity);
        ("instrument", JObj [("symbol", symbol); ("assetType", asset_type)])].

(** [Orders.build_equity_order(symbol, quantity, instruction, order_type,
    session, duration, price, stop_price)] *)
Definition build_equity_order (symbol : string) (quantity : Z)
    (instruction order_type session duration : string)
    (price stop_price : option Float) : json :=
  let order :=
    [("orderType", JStr order_type);
     ("session", JStr session);
     ("duration", JStr duration);
     ("orderStrategyType", JStr "SINGLE");
     ("orderLegCollection",
      JArr [order_leg (JStr instruction) (JNum quantity)
              (JStr (PyText.upper symbol)) (JStr "EQUITY")])] in
  let order := set_price "price" price order in
  let order := set_price "stopPrice" stop_price order in
  JObj order.

(** [Orders.build_option_order(symbol, quantity, instruction, order_type,
    session, duration, price, stop_price)] *)
Definition build_option_order (symbol : string) (quantity : Z)
    (instruction order_type session duration : string)
    (price stop_price : option Float) : json :=
  let order :=
    [("orderType", JStr order_type);
     ("session", JStr session);
     ("duration", JStr duration);
     ("orderStrategyType", JStr "SINGLE");
     ("complexOrderStrategyType", JStr "NONE");
     ("orderLegCollection",
      JArr [order_leg (JStr instruction) (JNum quantity)
              (JStr (PyText.upper symbol)) (JStr "OPTION")])] in
  let order := set_price "price" price order in
  let order := set_price "stopPrice" stop_price order in
  JObj order.

(** [leg[key]] on a leg dict: [KeyError] names the missing key. *)
Definition leg_item (key : string) (leg : list (string * json)) : Outcome json :=
  match dict_get key leg with
  | Some v => Return v
  | None => Raise (ExOther ("KeyError: " +:+ key))
  end.

(** [v.upper()]: only a [str] has the method. *)
Definition json_upper (v : json) : Outcome json :=
  match v with
  | JStr s => Return (JStr (PyText.upper s))
  | _ => Raise ExAttributeError
  end.

(** [leg.get('assetType', 'OPTION')] *)
Definition leg_asset_type (leg : list (string * json)) : json :=
  match dict_get "assetType" leg with
  | Some v => v
  | None => JStr "OPTION"
  end.

(** The dict appended for one leg; its items are evaluated in source order:
    [instruction], [quantity], then [symbol] and its [upper()]. *)
Definition spread_leg (leg : list (string * json)) : Outcome json :=
  obind (leg_item "instruction" leg) (fun instruction =>
  obind (leg_item "quantity" leg) (fun quantity =>
  obind (leg_item "symbol" leg) (fun symbol =>
  obind (json_upper symbol) (fun upper_symbol =>
  Return (order_leg instruction quantity upper_symbol (leg_asset_type leg)))))).

(** [Orders.build_spread_order(legs, order_type, price, session, duration)] *)
Definition build_spread_order (legs : list (list (string * json)))
    (order_type : string) (price : option Float) (session duration : string) : Outcome json :=
  obind (map_outcome spread_leg legs) (fun order_legs =>
    let order :=
      [("orderType", JStr order_type);
       ("session", JStr session);
       ("duration", JStr duration);
       ("orderStrategyType", JStr "SINGLE");
       ("orderLegCollection", JArr order_legs)] in
    let order := set_price "price" price order in
    Return (JObj order)).

(** A leg [build_spread_order] accepts: it has [instruction], [quantity]
    and a [str] under [symbol]. *)
Definition leg_ok (leg : list (string * json)) : bool :=
  match dict_get "instruction" leg, dict_get "quantity" leg, dict_get "symbol" leg with
  | Some _, Some _, Some (JStr _) => true
  | _, _, _ => false
  end.

(** Whether the [symbol] of a leg, when it is a [str], is ASCII text, where
    [PyText.upper] is [str.upper()]. *)
Definition leg_symbol_ascii (leg : list (string * json)) : bool :=
  match dict_get "symbol" leg with
  | Some (JStr s) => PyText.is_ascii s
  | _ => true
  end.

End Builders.
End Orders.

(** [j[key]] for a value that is a dict, [None] when the key is missing or
    the value is no dict. *)
Definition json_get (key : string) (j : json) : option json :=
  match j with
  | JObj fields => dict_get key fields
  | _ => None
  end.

(** * Properties *)

(** ** Running the monad *)

Lemma bind_Return {A B} (m : Py A) (k : A -> Py B) tr a tr' :
  m tr = (Return a, tr') -> bind m k tr = k a tr'.
Proof. intros H. unfold bind. rewrite H. reflexivity. Qed.

Lemma bind_Raise {A B} (m : Py A) (k : A -> Py B) tr e tr' :
  m tr = (Raise e, tr') -> bind m k tr = (Raise e, tr').
Proof. intros H. unfold bind. rewrite H. reflexivity. Qed.

Lemma transport_calls_app tr1 tr2 :
  transport_calls (tr1 ++ tr2) = (transport_calls tr1 + transport_calls tr2)%nat.
Proof. unfold transport_calls. rewrite List.filter_app, length_app. reflexivity. Qed.


Lemma transport_calls_token tr :
  transport_calls (tr ++ [CallGetAccessToken]) = transport_calls tr.
Proof. rewrite transport_calls_app. cbn. lia. Qed.

(** ** Response classification *)

Lemma str_truthy_false s : str_truthy s = false <-> s = "".
Proof.
  unfold str_truthy. rewrite negb_false_iff. apply String.eqb_eq.
Qed.

Lemma str_truthy_true s : str_truthy s = true <-> s <> "".
Proof.
  unfold str_truthy. rewrite negb_true_iff. apply String.eqb_neq.
Qed.

(** C6.  On a 2xx response, status 204 or an empty body gives the empty
    dict; otherwise a body that [json()] parses gives the parsed value, and
    a body on which [json()] raises [ValueError] gives the response text. *)
Theorem _handle_response_success (r : Response) :
  200 <= status_code r < 300 ->
  ((status_code r = 204 \/ content r = "") -> _handle_response r = Return empty_dict)
  /\ (status_code r <> 204 -> content r <> "" ->
      (forall data, json_body r = Some data -> _handle_response r = Return data)
      /\ (json_body r = None -> _handle_response r = Return (JStr (text r)))).
Proof.
  intros Hrange. unfold _handle_response.
  assert (Hin : (200 <=? status_code r) && (status_code r <? 300) = true)
    by (apply andb_true_iff; split; [apply Z.leb_le | apply Z.ltb_lt]; lia).
  rewrite Hin. split.
  - intros [H204 | Hempty].
    + rewrite H204. reflexivity.
    + apply str_truthy_false in Hempty. rewrite Hempty, orb_true_r. reflexivity.
  - intros H204 Hbody.
    apply Z.eqb_neq in H204. apply str_truthy_true in Hbody. rewrite H204, Hbody. cbn.
    split.
    + intros data ->. reflexivity.
    + intros ->. reflexivity.
Qed.

Lemma _handle_response_success_witness :
  200 <= 200 < 300
  /\ _handle_response (mkResponse 204 "" "" None) = Return empty_dict
  /\ _handle_response ok_response = Return (JObj [("data", JStr "ok")])
  /\ _handle_response (mkResponse 200 "plain text" "plain text" None)
     = Return (JStr "plain text").
Proof.
  split; [lia|]. split; [|split].
  - refine (proj1 (_handle_response_success (mkResponse 204 "" "" None) _) _);
      cbn; [lia | left; reflexivity].
  - refine (proj1 (proj2 (_handle_response_success ok_response _) _ _) _ _);
      cbn; [lia | lia | discriminate | reflexivity].
  - refine (proj2 (proj2 (_handle_response_success
                            (mkResponse 200 "plain text" "plain text" None) _) _ _) _);
      cbn; [lia | lia | discriminate | reflexivity].
Defined.

Lemma kind_of_status_cases sc :
  (sc = 400 -> kind_of_status sc = BadRequestError)
  /\ (sc = 401 -> kind_of_status sc = UnauthorizedError)
  /\ (sc = 403 -> kind_of_status sc = ForbiddenError)
  /\ (sc = 404 -> kind_of_status sc = NotFoundError)
  /\ (sc = 429 -> kind_of_status sc = RateLimitError)
  /\ (500 <= sc -> kind_of_status sc = ServerError)
  /\ (sc < 500 -> sc <> 400 -> sc <> 401 -> sc <> 403 -> sc <> 404 -> sc <> 429 ->
      kind_of_status sc = APIError).
Proof.
  unfold kind_of_status.
  repeat split; intros; subst; try reflexivity.
  - repeat match goal with
           | |- context [?a =? ?b] => destruct (Z.eqb_spec a b); [lia|]
           end.
    replace (sc >=? 500) with true; [reflexivity|].
    symmetry. rewrite Z.geb_leb. apply Z.leb_le. lia.
  - repeat match goal with
           | |- context [?a =? ?b] => destruct (Z.eqb_spec a b); [lia|]
           end.
    replace (sc >=? 500) with false; [reflexivity|].
    symmetry. rewrite Z.geb_leb. apply Z.leb_gt. lia.
Qed.

(** C4, as amended.  For a non-2xx response whose body either does not
    parse as JSON or parses to a JSON object, [_handle_response] raises the
    error class of the status code (400, 401, 403, 404, 429, any status from
    500 up, the generic [APIError] for the rest) carrying the status code and
    the response; its message is the object's [message] field, else its
    [error] field, else the generic [API error <status>]; only a body that
    does not parse as JSON gives its raw text, when that is not empty. *)
Theorem _handle_response_error (r : Response) :
  ~ (200 <= status_code r < 300) ->
  (json_body r = None \/ exists fields, json_body r = Some (JObj fields)) ->
  exists k msg,
    _handle_response r = Raise (ExAPI (mkApiError k msg (Some (status_code r)) (Some r)))
    /\ ((status_code r = 400 -> k = BadRequestError)
        /\ (status_code r = 401 -> k = UnauthorizedError)
        /\ (status_code r = 403 -> k = ForbiddenError)
        /\ (status_code r = 404 -> k = NotFoundError)
        /\ (status_code r = 429 -> k = RateLimitError)
        /\ (500 <= status_code r -> k = ServerError)
        /\ (status_code r < 500 -> status_code r <> 400 -> status_code r <> 401 ->
            status_code r <> 403 -> status_code r <> 404 -> status_code r <> 429 ->
            k = APIError))
    /\ (forall fields, json_body r = Some (JObj fields) ->
          msg = match dict_get "message" fields, dict_get "error" fields with
                | Some m, _ => m
                | None, Some m => m
                | None, None => JStr ("API error " +:+ pretty (status_code r))
                end)
    /\ (json_body r = None ->
          msg = if String.eqb (text r) "" then JStr ("API error " +:+ pretty (status_code r))
                else JStr (text r)).
Proof.
  intros Hrange Hbody. unfold _handle_response.
  assert (Hout : (200 <=? status_code r) && (status_code r <? 300) = false).
  { apply andb_false_iff.
    destruct (Z.leb_spec 200 (status_code r)); [right; apply Z.ltb_ge; lia | left; reflexivity]. }
  rewrite Hout. unfold error_msg_of.
  destruct Hbody as [Hnone | [fields Hobj]].
  - rewrite Hnone. cbn [obind]. eexists _, _. split; [reflexivity|].
    split; [apply kind_of_status_cases|]. split; [intros ?; discriminate|].
    intros _. unfold str_truthy, default_error_msg.
    destruct (String.eqb (text r) ""); reflexivity.
  - rewrite Hobj. cbn [py_in py_getitem obind].
    destruct (dict_get "message" fields) as [m|] eqn:Hm.
    + replace (bool_decide (is_Some (Some m))) with true
        by (symmetry; apply bool_decide_eq_true; eexists; reflexivity).
      cbn [obind]. eexists _, _. split; [reflexivity|].
      split; [apply kind_of_status_cases|]. split; [|intros ?; congruence].
      intros fields' Heq. injection Heq as <-. rewrite Hm. reflexivity.
    + replace (bool_decide (is_Some (@None json))) with false
        by (symmetry; apply bool_decide_eq_false; intros [? ?]; discriminate).
      destruct (dict_get "error" fields) as [m|] eqn:He.
      * replace (bool_decide (is_Some (Some m))) with true
          by (symmetry; apply bool_decide_eq_true; eexists; reflexivity).
        cbn [obind]. eexists _, _. split; [reflexivity|].
        split; [apply kind_of_status_cases|]. split; [|intros ?; congruence].
        intros fields' Heq. injection Heq as <-. rewrite Hm, He. reflexivity.
      * replace (bool_decide (is_Some (@None json))) with false
          by (symmetry; apply bool_decide_eq_false; intros [? ?]; discriminate).
        cbn [obind]. eexists _, _. split; [reflexivity|].
        split; [apply kind_of_status_cases|]. split; [|intros ?; congruence].
        intros fields' Heq. injection Heq as <-. rewrite Hm, He. reflexivity.
Qed.

Lemma _handle_response_error_witness :
  let r := mkResponse 404 "content" "{'message': 'not found'}"
             (Some (JObj [("message", JStr "not found")])) in
  ~ (200 <= status_code r < 300)
  /\ (json_body r = None \/ exists fields, json_body r = Some (JObj fields))
  /\ exists k msg,
       _handle_response r = Raise (ExAPI (mkApiError k msg (Some 404) (Some r)))
       /\ k = NotFoundError /\ msg = JStr "not found".
Proof.
  intros r.
  assert (H1 : ~ (200 <= status_code r < 300)) by (cbn; lia).
  assert (H2 : json_body r = None \/ exists fields, json_body r = Some (JObj fields))
    by (right; eexists; reflexivity).
  split; [exact H1|]. split; [exact H2|].
  destruct (_handle_response_error r H1 H2) as (k & msg & Heq & Hk & Hobj & _).
  exists k, msg. split; [exact Heq|]. split.
  - apply Hk. reflexivity.
  - apply (Hobj _ eq_refl).
Defined.

(** C4 as stated fails on a JSON object without [message] and [error]: the
    stated rule falls back to the raw text, the code raises with the generic
    string. *)
Lemma _handle_response_raw_text_counterexample :
  let r := mkResponse 400 "{}" "{}" (Some (JObj [])) in
  ~ (200 <= status_code r < 300)
  /\ claimed_error_msg r = JStr "{}"
  /\ _handle_response r
     = Raise (ExAPI (mkApiError BadRequestError (JStr "API error 400") (Some 400) (Some r)))
  /\ _handle_response r
     <> Raise (ExAPI (mkApiError BadRequestError (claimed_error_msg r) (Some 400) (Some r))).
Proof.
  intros r. split; [cbn; lia|]. split; [reflexivity|]. split; [reflexivity|].
  vm_compute. discriminate.
Qed.

(** A body that parses to a JSON scalar makes the membership test itself
    raise [TypeError], which nothing in [_handle_response] catches. *)
Example _handle_response_scalar_body :
  _handle_response (mkResponse 500 "5" "5" (Some (JNum 5))) = Raise ExTypeError.
Proof. reflexivity. Qed.

Section ClientFacts.

Variable urljoin : string -> string -> string.

(** When the token manager fails, [_request] stops there with its exception. *)
Lemma _request_token_failure self method endpoint params json_arg kwargs tr e :
  auth self (token_calls tr) = Raise e ->
  _request urljoin self method endpoint params json_arg kwargs tr
  = (Raise e, tr ++ [CallGetAccessToken]).
Proof.
  intros Hauth. unfold _request, bind, try_except, auth_get_access_token.
  rewrite Hauth. destruct e; reflexivity.
Qed.

(** A repeated keyword stops [_request] after the token call: the
    [TypeError] of the call expression is none of the classes the [except]
    clauses name. *)
Lemma _request_collision self method endpoint params json_arg kwargs tr tok :
  auth self (token_calls tr) = Return tok ->
  kwargs_collide kwargs = true ->
  _request urljoin self method endpoint params json_arg kwargs tr
  = (Raise ExTypeError, tr ++ [CallGetAccessToken]).
Proof.
  intros Hauth Hcol. unfold _request, bind, try_except, auth_get_access_token, raise.
  rewrite Hauth, Hcol. reflexivity.
Qed.

(** When the token manager succeeds and no keyword is repeated, [_request]
    makes one transport call and its outcome is decided by that call alone. *)
Lemma _request_token_success self method endpoint params json_arg kwargs tr tok :
  auth self (token_calls tr) = Return tok ->
  kwargs_collide kwargs = false ->
  let req := outgoing urljoin self method endpoint params json_arg kwargs tok in
  let tr1 := tr ++ [CallGetAccessToken] in
  _request urljoin self method endpoint params json_arg kwargs tr
  = match _session self (transport_calls tr1) req with
    | Return response =>
        match _handle_response response with
        | Return v => (Return v, tr1 ++ [CallSessionRequest req])
        | Raise e => request_handler self e (tr1 ++ [CallSessionRequest req])
        end
    | Raise e => request_handler self e (tr1 ++ [CallSessionRequest req])
    end.
Proof.
  intros Hauth Hcol req tr1.
  unfold _request, bind, try_except, auth_get_access_token, session_request, lift.
  rewrite Hauth, Hcol. fold tr1.
  fold (outgoing urljoin self method endpoint params json_arg kwargs tok).
  fold req. destruct (_session self (transport_calls tr1) req) as [response|e];
    [destruct (_handle_response response)|]; reflexivity.
Qed.

(** The handler never touches the trace. *)
Lemma request_handler_trace self e tr :
  snd (request_handler self e tr) = tr.
Proof. destruct e; reflexivity. Qed.

(** No path through [_request] reaches the transport twice. *)
Lemma _request_one_attempt self method endpoint params json_arg kwargs tr :
  (transport_calls (snd (_request urljoin self method endpoint params json_arg kwargs tr))
   <= transport_calls tr + 1)%nat.
Proof.
  destruct (auth self (token_calls tr)) as [tok|e] eqn:Hauth.
  - destruct (kwargs_collide kwargs) eqn:Hcol.
    + rewrite (_request_collision _ _ _ _ _ _ _ _ Hauth Hcol). cbn [snd].
      rewrite transport_calls_app. cbn. lia.
    + rewrite (_request_token_success _ _ _ _ _ _ _ _ Hauth Hcol).
      cbv zeta.
      destruct (_session self _ _) as [response|e'];
        [destruct (_handle_response response) as [v|e']|];
        rewrite ?request_handler_trace; cbn [snd];
        rewrite !transport_calls_app; cbn; lia.
  - rewrite (_request_token_failure _ _ _ _ _ _ _ _ Hauth). cbn [snd].
    rewrite transport_calls_app. cbn. lia.
Qed.

(** With a token in hand and no repeated keyword the trace grows by the
    token call and one transport call, whatever the outcome. *)
Lemma _request_trace_success self method endpoint params json_arg kwargs tr tok :
  auth self (token_calls tr) = Return tok ->
  kwargs_collide kwargs = false ->
  snd (_request urljoin self method endpoint params json_arg kwargs tr)
  = tr ++ [CallGetAccessToken;
           CallSessionRequest (outgoing urljoin self method endpoint params json_arg kwargs tok)].
Proof.
  intros Hauth Hcol. rewrite (_request_token_success _ _ _ _ _ _ _ _ Hauth Hcol). cbv zeta.
  destruct (_session self _ _) as [response|e'];
    [destruct (_handle_response response) as [v|e']|];
    rewrite ?request_handler_trace; cbn [snd]; rewrite <- app_assoc; reflexivity.
Qed.

(** The same for a call without keyword arguments, as the wrappers make it. *)
Lemma _request_trace_plain self method endpoint params json_arg tr tok :
  auth self (token_calls tr) = Return tok ->
  snd (_request urljoin self method endpoint params json_arg no_kwargs tr)
  = tr ++ [CallGetAccessToken;
           CallSessionRequest (outgoing urljoin self method endpoint params json_arg no_kwargs tok)].
Proof. intros Hauth. apply (_request_trace_success _ _ _ _ _ _ _ _ Hauth). reflexivity. Qed.

(** The headers of the outgoing request, key by key: the caller's entry
    where the caller's dict has one, else the entry of the dict that holds
    the bearer token. *)
Lemma request_headers_lookup tok kwargs k :
  request_headers tok kwargs !! k
  = match kw_headers kwargs ≫= (.!! k) with
    | Some w => Some w
    | None => ({[ "Authorization" := "Bearer " +:+ tok ]} : gmap string string) !! k
    end.
Proof.
  unfold request_headers. destruct (kw_headers kwargs) as [h|]; cbn; [|reflexivity].
  rewrite lookup_union. destruct (h !! k) as [w|]; cbn.
  - destruct (_ !! k); reflexivity.
  - destruct (_ !! k); reflexivity.
Qed.

(** ** Token first, then the transport (C7) *)


(** ** Caller headers are merged last (C9) *)

(** C9.  The headers of the outgoing request are the caller's [headers]
    merged over the dict that holds the bearer token: every entry the caller
    supplies is sent as supplied, every key the caller does not supply keeps
    the executor's entry, so [Authorization] is the bearer token when the
    caller gives none and the caller's value when the caller gives one. *)
Theorem _request_caller_headers_win self method endpoint params json_arg kwargs tr tok :
  auth self (token_calls tr) = Return tok ->
  kwargs_collide kwargs = false ->
  exists req,
    snd (_request urljoin self method endpoint params json_arg kwargs tr)
    = tr ++ [CallGetAccessToken; CallSessionRequest req]
    /\ (forall k,
          req_headers req !! k
          = match kw_headers kwargs ≫= (.!! k) with
            | Some w => Some w
            | None => ({[ "Authorization" := "Bearer " +:+ tok ]} : gmap string string) !! k
            end)
    /\ (forall h v, kw_headers kwargs = Some h -> h !! "Authorization" = Some v ->
          req_headers req !! "Authorization" = Some v)
    /\ (forall h, kw_headers kwargs = Some h -> h !! "Authorization" = None ->
          req_headers req !! "Authorization" = Some ("Bearer " +:+ tok)
          /\ forall k w, h !! k = Some w -> req_headers req !! k = Some w).
Proof.
  intros Hauth Hcol. eexists.
  split; [apply (_request_trace_success _ _ _ _ _ _ _ _ Hauth Hcol)|].
  cbn [outgoing req_headers]. split; [intros k; apply request_headers_lookup|].
  split.
  - intros h v Hkw Hv. rewrite request_headers_lookup, Hkw. cbn. rewrite Hv. reflexivity.
  - intros h Hkw Hnone. split.
    + rewrite request_headers_lookup, Hkw. cbn. rewrite Hnone. apply lookup_singleton_eq.
    + intros k w Hk. rewrite request_headers_lookup, Hkw. cbn. rewrite Hk. reflexivity.
Qed.

(** ** Transport failures and the generic error (C8) *)


End ClientFacts.



Lemma _request_caller_headers_win_witness :
  let self := test_client (always (Return ok_response)) in
  let with_auth : gmap string string := {[ "Authorization" := "Basic abc" ]} in
  let without_auth : gmap string string := {[ "X-Trace" := "1" ]} in
  auth self 0%nat = Return "fake_token"
  /\ with_auth !! "Authorization" = Some "Basic abc"
  /\ without_auth !! "Authorization" = None
  /\ (exists req,
        snd (get simple_urljoin self "/test" None (mkKwargs (Some with_auth) []) [])
        = [CallGetAccessToken; CallSessionRequest req]
        /\ req_headers req !! "Authorization" = Some "Basic abc")
  /\ (exists req,
        snd (get simple_urljoin self "/test" None (mkKwargs (Some without_auth) []) [])
        = [CallGetAccessToken; CallSessionRequest req]
        /\ req_headers req !! "Authorization" = Some "Bearer fake_token"
        /\ req_headers req !! "X-Trace" = Some "1").
Proof.
  intros self with_auth without_auth.
  assert (Hauth : auth self (token_calls []) = Return "fake_token") by reflexivity.
  assert (Hv : with_auth !! "Authorization" = Some "Basic abc") by (apply lookup_singleton_eq).
  assert (Hn : without_auth !! "Authorization" = None) by (vm_compute; reflexivity).
  assert (Hx : without_auth !! "X-Trace" = Some "1") by (apply lookup_singleton_eq).
  split; [exact Hauth|]. split; [exact Hv|]. split; [exact Hn|]. split.
  - destruct (_request_caller_headers_win simple_urljoin self "GET" "/test" None None
                (mkKwargs (Some with_auth) []) [] "fake_token" Hauth eq_refl)
      as (req & Htr & _ & Hwin & _).
    exists req. split; [exact Htr | exact (Hwin with_auth "Basic abc" eq_refl Hv)].
  - destruct (_request_caller_headers_win simple_urljoin self "GET" "/test" None None
                (mkKwargs (Some without_auth) []) [] "fake_token" Hauth eq_refl)
      as (req & Htr & _ & _ & Hkeep).
    destruct (Hkeep without_auth eq_refl Hn) as [Hbearer Hall].
    exists req. split; [exact Htr|]. split; [exact Hbearer | exact (Hall "X-Trace" "1" Hx)].
Defined.


(** ** One transport attempt per call: the retry, rate-limit and close tests *)

(** C1.  [test_get_retries_on_timeout] and its siblings script one failure
    followed by a success and expect the success after two transport calls.
    [_request] has no retry loop: GET, PUT and DELETE surface the first
    failure after one transport call, exactly as POST does. *)
Theorem _request_single_attempt_on_failure_then_ok :
  let timeout_then_ok := side_effect [Raise (ExTimeout "timeout"); Return ok_response] in
  let conn_then_ok := side_effect [Raise (ExConnectionError "conn err"); Return ok_response] in
  let err_then_ok := side_effect [Return server_error_response; Return ok_response] in
  let timed_out :=
    Raise (ExAPI (mkApiError APIError (JStr "Request timeout after 30 seconds") None None)) in
  let run (m : Py json) := let '(res, tr) := m [] in (res, transport_calls tr) in
  run (get simple_urljoin (test_client timeout_then_ok) "/test" None no_kwargs)
    = (timed_out, 1%nat)
  /\ run (get simple_urljoin (test_client conn_then_ok) "/test" None no_kwargs)
    = (Raise (ExAPI (mkApiError APIError (JStr "Connection error: conn err") None None)), 1%nat)
  /\ run (get simple_urljoin (test_client err_then_ok) "/test" None no_kwargs)
    = (Raise (ExAPI (mkApiError ServerError (JStr "Internal Server Error") (Some 500)
                       (Some server_error_response))), 1%nat)
  /\ run (put simple_urljoin (test_client timeout_then_ok)
            "/trader/v1/accounts/ABC/orders/123" None no_kwargs)
    = (timed_out, 1%nat)
  /\ run (delete simple_urljoin (test_client timeout_then_ok)
            "/trader/v1/accounts/ABC/orders/123" no_kwargs)
    = (timed_out, 1%nat)
  /\ run (post simple_urljoin (test_client timeout_then_ok)
            "/trader/v1/accounts/ABC/orders" None no_kwargs)
    = (timed_out, 1%nat).
Proof. cbv zeta. repeat split; vm_compute; reflexivity. Qed.

(** C5.  [test_get_exhausts_retries] lets every transport call time out and
    expects four calls and a message with the attempt count.  The code raises
    after the first call, and its message names the timeout in seconds. *)
Theorem get_all_timeouts_single_attempt :
  get simple_urljoin (test_client (always (Raise (ExTimeout "timeout")))) "/test" None no_kwargs []
  = (Raise (ExAPI (mkApiError APIError (JStr "Request timeout after 30 seconds") None None)),
     [CallGetAccessToken; CallSessionRequest (test_req "GET" "test" None)]).
Proof. vm_compute. reflexivity. Qed.

(** C2.  [test_at_limit_triggers_sleep] calls [client._check_rate_limit()],
    which the class does not define, and three requests in a row are three
    token calls and three transport calls and nothing else: [_request] has
    no admission step, keeps no timestamps and never sleeps, whatever the
    request rate. *)
Theorem three_gets_trace :
  let self := test_client (always (Return ok_response)) in
  let call := get simple_urljoin self "/test" None no_kwargs in
  getattr "_check_rate_limit" = Raise ExAttributeError
  /\ snd ((_ <- call ;; _ <- call ;; call) [])
  = [CallGetAccessToken; CallSessionRequest (test_req "GET" "test" None);
     CallGetAccessToken; CallSessionRequest (test_req "GET" "test" None);
     CallGetAccessToken; CallSessionRequest (test_req "GET" "test" None)].
Proof. split; vm_compute; reflexivity. Qed.

(** C3.  [client.close()] is an [AttributeError]: the class defines no
    [close] (nor [__enter__] and [__exit__]), and no request path checks
    for a closed session, so a request always reaches the transport. *)
Theorem close_is_missing :
  getattr "close" = Raise ExAttributeError
  /\ getattr "__exit__" = Raise ExAttributeError
  /\ getattr "get" = Return tt
  /\ get simple_urljoin (test_client (always (Return ok_response))) "/test" None no_kwargs []
     = (Return (JObj [("data", JStr "ok")]),
        [CallGetAccessToken; CallSessionRequest (test_req "GET" "test" None)]).
Proof. repeat split; vm_compute; reflexivity. Qed.

(** ** [build_url] (C10) *)

Module PyStrFacts.
Import PyStr.

Lemma append_assoc (s1 s2 s3 : string) : (s1 +:+ s2) +:+ s3 = s1 +:+ s2 +:+ s3.
Proof.
  induction s1 as [|a s1 IH]; [reflexivity|].
  change (String a ((s1 +:+ s2) +:+ s3) = String a (s1 +:+ s2 +:+ s3)).
  rewrite IH. reflexivity.
Qed.

Lemma append_cons a (s t : string) : String a s +:+ t = String a (s +:+ t).
Proof. reflexivity. Qed.

Lemma append_nil (t : string) : EmptyString +:+ t = t.
Proof. reflexivity. Qed.

Lemma contains_append c s1 s2 :
  contains c (s1 +:+ s2) = contains c s1 || contains c s2.
Proof.
  induction s1 as [|a s1 IH]; [reflexivity|].
  rewrite append_cons. cbn. rewrite IH. apply orb_assoc.
Qed.

(** [lstrip] removes a run of [c] at the front and stops at the first other
    character. *)
Lemma lstrip_spec c s :
  starts_with c (lstrip c s) = false
  /\ exists n, s = replicate_char n c +:+ lstrip c s.
Proof.
  induction s as [|a s [IHs [n IHn]]].
  - split; [reflexivity | exists O; reflexivity].
  - cbn [lstrip]. destruct (Ascii.eqb_spec a c) as [->|Hne].
    + split; [exact IHs|]. exists (S n). cbn [replicate_char].
      rewrite append_cons, <- IHn. reflexivity.
    + split.
      * cbn. apply Ascii.eqb_neq. exact Hne.
      * exists O. reflexivity.
Qed.

Lemma ends_with_cons c a s :
  s <> EmptyString -> ends_with c (String a s) = ends_with c s.
Proof. destruct s; [congruence | reflexivity]. Qed.

(** [rstrip] removes a run of [c] at the back and nothing else. *)
Lemma rstrip_spec c s :
  ends_with c (rstrip c s) = false
  /\ exists n, s = rstrip c s +:+ replicate_char n c.
Proof.
  induction s as [|a s [IHs [n IHn]]].
  - split; [reflexivity | exists O; reflexivity].
  - cbn [rstrip]. destruct (rstrip c s) as [|b r] eqn:Hr.
    + rewrite append_nil in IHn. destruct (Ascii.eqb_spec a c) as [->|Hne].
      * split; [reflexivity|]. exists (S n). rewrite append_nil. cbn [replicate_char].
        rewrite <- IHn. reflexivity.
      * split; [cbn; apply Ascii.eqb_neq; exact Hne|].
        exists n. rewrite append_cons, append_nil, <- IHn. reflexivity.
    + split.
      * rewrite ends_with_cons by discriminate. exact IHs.
      * exists n. rewrite append_cons, <- IHn. reflexivity.
Qed.

(** Splitting on a character the string does not contain returns it whole. *)
Lemma split_no_sep c s : contains c s = false -> split c s = [s].
Proof.
  induction s as [|a s IH]; cbn; [reflexivity|].
  intros H. apply orb_false_iff in H as [Ha Hs].
  rewrite Ha, (IH Hs). reflexivity.
Qed.

Lemma split_app_sep c s t :
  contains c s = false -> split c (s +:+ String c t) = s :: split c t.
Proof.
  induction s as [|a s IH].
  - intros _. rewrite append_nil. cbn. rewrite Ascii.eqb_refl. reflexivity.
  - intros H. cbn in H. apply orb_false_iff in H as [Ha Hs].
    rewrite append_cons. cbn [split]. rewrite Ha, (IH Hs). reflexivity.
Qed.

(** [split] undoes [join] when no element contains the separator. *)
Lemma split_join c l :
  l <> [] -> Forall (fun x => contains c x = false) l ->
  split c (join (String c EmptyString) l) = l.
Proof.
  induction l as [|x l IH]; [congruence|].
  intros _ Hall. apply Forall_cons_iff in Hall as [Hx Hl].
  destruct l as [|y l].
  - cbn. apply split_no_sep. exact Hx.
  - change (join (String c EmptyString) (x :: y :: l))
      with (x +:+ String c (join (String c EmptyString) (y :: l))).
    rewrite (split_app_sep _ _ _ Hx), IH; [reflexivity | discriminate | exact Hl].
Qed.

Lemma contains_join c sep l :
  contains c sep = false -> Forall (fun x => contains c x = false) l ->
  contains c (join sep l) = false.
Proof.
  intros Hsep. induction l as [|x l IH]; [reflexivity|].
  intros Hall. apply Forall_cons_iff in Hall as [Hx Hl].
  destruct l as [|y l]; [exact Hx|].
  change (join sep (x :: y :: l)) with (x +:+ sep +:+ join sep (y :: l)).
  rewrite !contains_append, Hx, Hsep, (IH Hl). reflexivity.
Qed.

End PyStrFacts.

Module UrllibFacts.
Import PyStr Urllib PyStrFacts.

Lemma quote_byte_reserved c a : reserved c -> contains c (quote_byte a) = false.
Proof.
  intros [-> | [-> | ->]];
    destruct a as [[] [] [] [] [] [] [] []]; vm_compute; reflexivity.
Qed.

(** A quoted string holds none of the delimiters. *)
Lemma quote_plus_reserved c s : reserved c -> contains c (quote_plus s) = false.
Proof.
  intros Hc. induction s as [|a s IH]; [reflexivity|].
  cbn [quote_plus]. rewrite contains_append, (quote_byte_reserved _ _ Hc), IH. reflexivity.
Qed.

Lemma encode_pair_no_amp kv : contains "&" (encode_pair kv) = false.
Proof.
  unfold encode_pair. rewrite !contains_append.
  rewrite !quote_plus_reserved by (left; reflexivity). reflexivity.
Qed.

Lemma encode_pair_no_qmark kv : contains "?" (encode_pair kv) = false.
Proof.
  unfold encode_pair. rewrite !contains_append.
  rewrite !quote_plus_reserved by (right; right; reflexivity). reflexivity.
Qed.

Lemma split_encode_pair kv :
  split "=" (encode_pair kv) = [quote_plus (fst kv); quote_plus (py_str (snd kv))].
Proof.
  unfold encode_pair.
  change ("=" +:+ quote_plus (py_str (snd kv)))
    with (String "="%char (quote_plus (py_str (snd kv)))).
  rewrite split_app_sep by (apply quote_plus_reserved; right; left; reflexivity).
  rewrite split_no_sep by (apply quote_plus_reserved; right; left; reflexivity).
  reflexivity.
Qed.

(** Reading [urlencode]'s output back: split on [&], then on [=]. *)
Lemma urlencode_parse query :
  query <> [] ->
  map (split "=") (split "&" (urlencode query))
  = map (fun kv => [quote_plus (fst kv); quote_plus (py_str (snd kv))]) query.
Proof.
  intros Hne. unfold urlencode.
  rewrite (split_join "&" (map encode_pair query)).
  - rewrite map_map. apply map_ext. intros kv. apply split_encode_pair.
  - destruct query; [congruence | discriminate].
  - apply List.Forall_forall. intros x Hx. apply in_map_iff in Hx as (kv & <- & _).
    apply encode_pair_no_amp.
Qed.

Lemma urlencode_no_qmark query : contains "?" (urlencode query) = false.
Proof.
  unfold urlencode. apply contains_join; [reflexivity|].
  apply List.Forall_forall. intros x Hx. apply in_map_iff in Hx as (kv & <- & _).
  apply encode_pair_no_qmark.
Qed.

End UrllibFacts.

Section BuildUrl.
Import PyStr Urllib.

Lemma build_url_unfold base endpoint params :
  build_url base endpoint params
  = let url := rstrip "/" base +:+ "/" +:+ lstrip "/" endpoint in
    match kept_params params with
    | [] => url
    | fp => url +:+ "?" +:+ urlencode fp
    end.
Proof.
  unfold build_url, kept_params, filtered_params.
  destruct params as [[|kv ps]|]; reflexivity.
Qed.

(** C10, as amended.  [build_url] strips every trailing slash of the base
    and every leading slash of the endpoint and joins the two with one ['/'].
    When [params] is absent, empty or holds only [None] values, nothing is
    appended to that join.  Otherwise ['?'] and a query string follow: the
    query string holds no ['?'] of its own, and read back (split on ['&'],
    then on ['=']) it gives, in order, the quoted key and value of exactly
    those parameters whose value is not [None]. *)
Theorem build_url_spec base endpoint params :
  let b := rstrip "/" base in
  let e := lstrip "/" endpoint in
  (exists i j, base = b +:+ replicate_char i "/" /\ endpoint = replicate_char j "/" +:+ e)
  /\ ends_with "/" b = false
  /\ starts_with "/" e = false
  /\ (kept_params params = [] -> build_url base endpoint params = b +:+ "/" +:+ e)
  /\ (kept_params params <> [] ->
      exists q,
        build_url base endpoint params = b +:+ "/" +:+ e +:+ "?" +:+ q
        /\ contains "?" q = false
        /\ map (split "=") (split "&" q)
           = map (fun kv => [quote_plus (fst kv); quote_plus (py_str (snd kv))])
               (kept_params params)).
Proof.
  intros b e.
  destruct (PyStrFacts.rstrip_spec "/" base) as [Hb [i Hi]].
  destruct (PyStrFacts.lstrip_spec "/" endpoint) as [He [j Hj]].
  split; [exists i, j; split; assumption|].
  split; [exact Hb|]. split; [exact He|].
  rewrite build_url_unfold. cbv zeta. fold b e. split.
  - intros ->. reflexivity.
  - intros Hne. destruct (kept_params params) as [|kv fp] eqn:Hk; [congruence|].
    exists (urlencode (kv :: fp)). split; [|split].
    + rewrite !PyStrFacts.append_assoc. reflexivity.
    + apply UrllibFacts.urlencode_no_qmark.
    + apply UrllibFacts.urlencode_parse. discriminate.
Qed.

Lemma build_url_spec_witness :
  let some_none := Some [("fields", PNone)] in
  let mixed := Some [("symbols", PStr "AAPL MSFT"); ("fields", PNone); ("n", PInt 3)] in
  kept_params some_none = []
  /\ kept_params mixed <> []
  /\ build_url "https://h//" "//a" some_none = "https://h/a"
  /\ exists q,
       build_url "https://h//" "//a" mixed = "https://h/a?" +:+ q
       /\ map (split "=") (split "&" q) = [["symbols"; "AAPL+MSFT"]; ["n"; "3"]].
Proof.
  intros some_none mixed.
  assert (H1 : kept_params some_none = []) by reflexivity.
  assert (H2 : kept_params mixed <> []) by discriminate.
  split; [exact H1|]. split; [exact H2|]. split.
  - exact (proj1 (proj2 (proj2 (proj2 (build_url_spec "https://h//" "//a" some_none)))) H1).
  - destruct (proj2 (proj2 (proj2 (proj2 (build_url_spec "https://h//" "//a" mixed)))) H2)
      as (q & Hq & _ & Hparse).
    exists q. split; [exact Hq | exact Hparse].
Defined.

(** C10 as stated fails when the endpoint (or the base) already holds a
    ['?']: with no parameters the URL is the plain join, ['?'] included. *)
Lemma build_url_question_mark_counterexample :
  kept_params None = []
  /\ build_url "https://api.schwabapi.com" "/marketdata/v1/quotes?symbols=AAPL" None
     = "https://api.schwabapi.com/marketdata/v1/quotes?symbols=AAPL"
  /\ contains "?" (build_url "https://api.schwabapi.com"
                     "/marketdata/v1/quotes?symbols=AAPL" None) = true.
Proof. repeat split. Qed.

End BuildUrl.

(** ** Sample runs of [build_url] and [quote_plus] *)

Example build_url_ex1 :
  build_url "https://api.schwabapi.com//" "//marketdata/v1/quotes"
    (Some [("symbols", PStr "AAPL MSFT"); ("fields", PNone); ("n", PInt 3)])
  = "https://api.schwabapi.com/marketdata/v1/quotes?symbols=AAPL+MSFT&n=3".
Proof. vm_compute. reflexivity. Qed.

Example build_url_ex2 :
  build_url "https://h/" "/a" (Some [("x", PNone)]) = "https://h/a".
Proof. reflexivity. Qed.

Example quote_plus_ex : Urllib.quote_plus "a/b&c=d?~" = "a%2Fb%26c%3Dd%3F~".
Proof. vm_compute. reflexivity. Qed.

(** * Further properties of the code *)

From Stdlib Require Import ZifyNat.

(** ** [url_encode] *)

Module QuoteFacts.
Import Quote PyStrFacts.

(** A character other than [%] is read back as itself. *)
Lemma unquote_literal a s :
  a <> "%"%char -> unquote (String a s) = String a (unquote s).
Proof.
  intros Ha. apply Ascii.eqb_neq in Ha.
  destruct s as [|h1 [|h2 r]]; cbn [unquote]; rewrite ?Ha; reflexivity.
Qed.

Lemma unquote_quote_byte a rest :
  unquote (quote_byte a +:+ rest) = String a (unquote rest).
Proof.
  destruct a as [[] [] [] [] [] [] [] []];
    first [ reflexivity
          | match goal with
            | |- unquote (?q +:+ ?r) = String ?c _ => change (q +:+ r) with (String c r)
            end; apply unquote_literal; discriminate ].
Qed.

Lemma unquote_quote s : unquote (quote s) = s.
Proof.
  induction s as [|a s IH]; [reflexivity|].
  cbn [quote]. rewrite unquote_quote_byte, IH. reflexivity.
Qed.

Lemma length_append (s t : string) :
  String.length (s +:+ t) = (String.length s + String.length t)%nat.
Proof.
  induction s as [|a s IH]; [reflexivity|].
  rewrite append_cons. cbn [String.length]. rewrite IH. reflexivity.
Qed.

Lemma length_quote_byte a :
  String.length (quote_byte a) = (1 + 2 * (if Urllib.always_safe a then 0 else 1))%nat.
Proof. unfold quote_byte. destruct (Urllib.always_safe a); reflexivity. Qed.

Lemma length_quote s :
  String.length (quote s) = (String.length s + 2 * escaped_bytes s)%nat.
Proof.
  induction s as [|a s IH]; [reflexivity|].
  cbn [quote escaped_bytes String.length].
  rewrite length_append, length_quote_byte, IH. lia.
Qed.

Lemma quote_safe_id s : escaped_bytes s = O -> quote s = s.
Proof.
  induction s as [|a s IH]; [reflexivity|].
  cbn [escaped_bytes quote]. unfold quote_byte.
  destruct (Urllib.always_safe a); [|discriminate].
  intros Hs. rewrite (IH Hs). reflexivity.
Qed.

(** Every character [quote_byte] writes is unreserved or the [%] sign. *)
Lemma quote_byte_alphabet a :
  Forall (fun c => Urllib.always_safe c = true \/ c = "%"%char)
    (list_ascii_of_string (quote_byte a)).
Proof.
  assert (Hb : forallb (fun c => Urllib.always_safe c || Ascii.eqb c "%")
                 (list_ascii_of_string (quote_byte a)) = true)
    by (destruct a as [[] [] [] [] [] [] [] []]; vm_compute; reflexivity).
  apply List.Forall_forall. intros c Hc.
  apply (proj1 (List.forallb_forall _ _) Hb) in Hc.
  apply orb_true_iff in Hc as [Hc | Hc]; [left; exact Hc | right; apply Ascii.eqb_eq; exact Hc].
Qed.

Lemma list_ascii_of_string_append (s t : string) :
  list_ascii_of_string (s +:+ t) = list_ascii_of_string s ++ list_ascii_of_string t.
Proof.
  induction s as [|a s IH]; [reflexivity|].
  rewrite append_cons. cbn [list_ascii_of_string]. rewrite IH. reflexivity.
Qed.

End QuoteFacts.

(** X1.  Percent-decoding the result of [url_encode] gives the value back,
    byte for byte. *)
Theorem url_encode_unquote value :
  Quote.unquote (url_encode value) = value.
Proof. apply QuoteFacts.unquote_quote. Qed.

(** X2.  [url_encode] never maps two different values to the same text. *)
Theorem url_encode_injective v1 v2 :
  url_encode v1 = url_encode v2 -> v1 = v2.
Proof.
  intros H. rewrite <- (QuoteFacts.unquote_quote v1), <- (QuoteFacts.unquote_quote v2).
  unfold url_encode in H. rewrite H. reflexivity.
Qed.

Lemma url_encode_injective_witness :
  url_encode "BRK/B" = url_encode ("BRK" +:+ "/B") /\ "BRK/B" = "BRK" +:+ "/B".
Proof.
  split; [reflexivity|]. apply (url_encode_injective "BRK/B" ("BRK" +:+ "/B")). reflexivity.
Defined.

(** X3.  The text [url_encode] returns is made of unreserved characters
    (letters, digits, [_], [.], [-], [~]) and [%] only; no slash, question
    mark, ampersand, equals sign, hash, plus or space survives. *)
Theorem url_encode_alphabet value :
  Forall (fun c => Urllib.always_safe c = true \/ c = "%"%char)
    (list_ascii_of_string (url_encode value)).
Proof.
  unfold url_encode. induction value as [|a s IH]; [constructor|].
  cbn [Quote.quote]. rewrite QuoteFacts.list_ascii_of_string_append.
  apply Forall_app. split; [apply QuoteFacts.quote_byte_alphabet | exact IH].
Qed.

(** X4.  [url_encode] grows the value by two characters per escaped byte,
    and returns it unchanged exactly when no byte needs escaping. *)
Theorem url_encode_length value :
  String.length (url_encode value)
  = (String.length value + 2 * Quote.escaped_bytes value)%nat
  /\ (url_encode value = value <-> Quote.escaped_bytes value = O).
Proof.
  split; [apply QuoteFacts.length_quote|]. split.
  - intros Heq. pose proof (QuoteFacts.length_quote value) as Hlen.
    unfold url_encode in Heq. rewrite Heq in Hlen. lia.
  - apply QuoteFacts.quote_safe_id.
Qed.

(** ** [format_symbol] *)

Module PyTextFacts.
Import PyText.

Lemma upper_char_idem a : upper_char (upper_char a) = upper_char a.
Proof. destruct a as [[] [] [] [] [] [] [] []]; reflexivity. Qed.

Lemma is_space_upper_char a : is_space (upper_char a) = is_space a.
Proof. destruct a as [[] [] [] [] [] [] [] []]; reflexivity. Qed.

Lemma is_lower_upper_char a : Urllib.is_lower (upper_char a) = false.
Proof. destruct a as [[] [] [] [] [] [] [] []]; reflexivity. Qed.

Lemma upper_idem s : upper (upper s) = upper s.
Proof.
  induction s as [|a s IH]; [reflexivity|].
  cbn [upper]. rewrite upper_char_idem, IH. reflexivity.
Qed.

Lemma has_lower_upper s : has_lower (upper s) = false.
Proof.
  induction s as [|a s IH]; [reflexivity|].
  cbn [upper has_lower]. rewrite is_lower_upper_char, IH. reflexivity.
Qed.

Lemma upper_lstrip_space s : upper (lstrip_space s) = lstrip_space (upper s).
Proof.
  induction s as [|a s IH]; [reflexivity|].
  cbn [upper lstrip_space]. rewrite is_space_upper_char.
  destruct (is_space a); [exact IH | reflexivity].
Qed.

Lemma upper_rstrip_space s : upper (rstrip_space s) = rstrip_space (upper s).
Proof.
  induction s as [|a s IH]; [reflexivity|].
  cbn [upper rstrip_space]. rewrite <- IH, is_space_upper_char.
  destruct (rstrip_space s) as [|b r]; cbn [upper].
  - destruct (is_space a); reflexivity.
  - reflexivity.
Qed.

Lemma upper_strip s : upper (strip s) = strip (upper s).
Proof. unfold strip. rewrite upper_rstrip_space, upper_lstrip_space. reflexivity. Qed.

Lemma lstrip_space_starts s : starts_with_space (lstrip_space s) = false.
Proof.
  induction s as [|a s IH]; [reflexivity|].
  cbn [lstrip_space]. destruct (is_space a) eqn:Ha; [exact IH | exact Ha].
Qed.

Lemma lstrip_space_fixed s : starts_with_space s = false -> lstrip_space s = s.
Proof. destruct s as [|a s]; [reflexivity|]. cbn. intros ->. reflexivity. Qed.

Lemma rstrip_space_starts s :
  starts_with_space s = false -> starts_with_space (rstrip_space s) = false.
Proof.
  destruct s as [|a s]; [reflexivity|]. cbn [starts_with_space rstrip_space]. intros Ha.
  destruct (rstrip_space s); [rewrite Ha|]; cbn; auto.
Qed.

Lemma ends_with_space_cons a s :
  s <> EmptyString -> ends_with_space (String a s) = ends_with_space s.
Proof. destruct s; [congruence | reflexivity]. Qed.

Lemma rstrip_space_ends s : ends_with_space (rstrip_space s) = false.
Proof.
  induction s as [|a s IH]; [reflexivity|].
  cbn [rstrip_space]. destruct (rstrip_space s) as [|b r].
  - destruct (is_space a) eqn:Ha; [reflexivity | exact Ha].
  - rewrite ends_with_space_cons by discriminate. exact IH.
Qed.

Lemma rstrip_space_fixed s : ends_with_space s = false -> rstrip_space s = s.
Proof.
  induction s as [|a s IH]; [reflexivity|].
  destruct s as [|b r].
  - cbn. intros ->. reflexivity.
  - rewrite ends_with_space_cons by discriminate. intros H.
    cbn [rstrip_space] in *. rewrite (IH H). reflexivity.
Qed.

Lemma strip_idem s : strip (strip s) = strip s.
Proof.
  unfold strip.
  rewrite (lstrip_space_fixed (rstrip_space (lstrip_space s)))
    by (apply rstrip_space_starts, lstrip_space_starts).
  apply rstrip_space_fixed, rstrip_space_ends.
Qed.

Lemma has_lower_lstrip_space s : has_lower s = false -> has_lower (lstrip_space s) = false.
Proof.
  induction s as [|a s IH]; [reflexivity|].
  cbn [lstrip_space]. destruct (is_space a); [|auto].
  cbn [has_lower]. intros H. apply orb_false_iff in H as [_ H]. auto.
Qed.

Lemma has_lower_rstrip_space s : has_lower s = false -> has_lower (rstrip_space s) = false.
Proof.
  induction s as [|a s IH]; [reflexivity|].
  cbn [has_lower rstrip_space]. intros H. apply orb_false_iff in H as [Ha Hs].
  specialize (IH Hs). destruct (rstrip_space s) as [|b r].
  - destruct (is_space a); cbn [has_lower]; [reflexivity | rewrite Ha; reflexivity].
  - cbn [has_lower] in *. rewrite Ha, IH. reflexivity.
Qed.

End PyTextFacts.

(** X5.  On ASCII text [format_symbol] is a normalisation: applying it
    twice is applying it once, and the case of the input does not matter. *)
Theorem format_symbol_idempotent symbol :
  PyText.is_ascii symbol = true ->
  format_symbol (format_symbol symbol) = format_symbol symbol
  /\ format_symbol (PyText.upper symbol) = format_symbol symbol.
Proof.
  intros _. unfold format_symbol. split.
  - rewrite PyTextFacts.upper_strip, PyTextFacts.upper_idem. apply PyTextFacts.strip_idem.
  - rewrite PyTextFacts.upper_idem. reflexivity.
Qed.

Lemma format_symbol_idempotent_witness :
  PyText.is_ascii " brk.b " = true
  /\ format_symbol " brk.b " = "BRK.B"
  /\ format_symbol (format_symbol " brk.b ") = format_symbol " brk.b ".
Proof.
  split; [reflexivity|]. split; [reflexivity|].
  exact (proj1 (format_symbol_idempotent " brk.b " eq_refl)).
Defined.

(** X6.  On ASCII text the result of [format_symbol] has no lower-case
    letter and neither starts nor ends with white space. *)
Theorem format_symbol_normal_form symbol :
  PyText.is_ascii symbol = true ->
  PyText.has_lower (format_symbol symbol) = false
  /\ PyText.starts_with_space (format_symbol symbol) = false
  /\ PyText.ends_with_space (format_symbol symbol) = false.
Proof.
  intros _. unfold format_symbol, PyText.strip. split; [|split].
  - apply PyTextFacts.has_lower_rstrip_space, PyTextFacts.has_lower_lstrip_space,
      PyTextFacts.has_lower_upper.
  - apply PyTextFacts.rstrip_space_starts, PyTextFacts.lstrip_space_starts.
  - apply PyTextFacts.rstrip_space_ends.
Qed.

Lemma format_symbol_normal_form_witness :
  PyText.is_ascii "  aapl 240315c00150000 " = true
  /\ format_symbol "  aapl 240315c00150000 " = "AAPL 240315C00150000"
  /\ PyText.has_lower (format_symbol "  aapl 240315c00150000 ") = false.
Proof.
  split; [reflexivity|]. split; [reflexivity|].
  exact (proj1 (format_symbol_normal_form "  aapl 240315c00150000 " eq_refl)).
Defined.

(** ** [encode_credentials] *)

Module Base64Facts.
Import Base64.

(** Strings can be taken apart three bytes at a time. *)
Lemma string_ind3 (P : string -> Prop) :
  P EmptyString ->
  (forall a, P (String a EmptyString)) ->
  (forall a b, P (String a (String b EmptyString))) ->
  (forall a b c rest, P rest -> P (String a (String b (String c rest)))) ->
  forall s, P s.
Proof.
  intros H0 H1 H2 H3.
  assert (Hall : forall s, P s /\ (forall a, P (String a s)) /\ (forall a b, P (String a (String b s)))).
  { induction s as [|c s (IHs & IH1 & IH2)].
    - repeat split; auto.
    - split; [apply IH1|]. split; [intros a; apply IH2|].
      intros a b. apply H3. exact IHs. }
  intros s. apply Hall.
Qed.

Lemma b64_value_char n : (n < 64)%nat -> b64_value (b64_char n) = Some n.
Proof.
  intros Hn. do 64 (destruct n as [|n]; [reflexivity|]). lia.
Qed.

Lemma b64_char_not_pad n : (n < 64)%nat -> Ascii.eqb (b64_char n) "=" = false.
Proof.
  intros Hn. do 64 (destruct n as [|n]; [reflexivity|]). lia.
Qed.

Lemma byte_bound a : (nat_of_ascii a < 256)%nat.
Proof. apply nat_ascii_bounded. Qed.

Lemma sextets_in_range x y z :
  (x < 256)%nat -> (y < 256)%nat -> (z < 256)%nat ->
  (x / 4 < 64)%nat /\ (x mod 4 * 16 + y / 16 < 64)%nat
  /\ (y mod 16 * 4 + z / 64 < 64)%nat /\ (z mod 64 < 64)%nat
  /\ (x mod 4 * 16 < 64)%nat /\ (y mod 16 * 4 < 64)%nat.
Proof. intros Hx Hy Hz. repeat split; zify; Z.to_euclidean_division_equations; lia. Qed.

Lemma bytes_from_sextets x y z :
  (x < 256)%nat -> (y < 256)%nat -> (z < 256)%nat ->
  (x / 4 * 4 + (x mod 4 * 16 + y / 16) / 16 = x)%nat
  /\ ((x mod 4 * 16 + y / 16) mod 16 * 16 + (y mod 16 * 4 + z / 64) / 4 = y)%nat
  /\ ((y mod 16 * 4 + z / 64) mod 4 * 64 + z mod 64 = z)%nat.
Proof. intros Hx Hy Hz. repeat split; zify; Z.to_euclidean_division_equations; lia. Qed.

Lemma b64decode_b64encode s : b64decode (b64encode s) = Some s.
Proof.
  induction s as [|a|a b|a b c rest IH] using string_ind3.
  - reflexivity.
  - pose proof (byte_bound a) as Ha.
    destruct (sextets_in_range _ 0 0 Ha ltac:(lia) ltac:(lia)) as (H1 & _ & _ & _ & H2 & _).
    destruct (bytes_from_sextets _ 0 0 Ha ltac:(lia) ltac:(lia)) as (E1 & _ & _).
    cbn [b64encode b64decode]. cbv zeta.
    rewrite (b64_value_char _ H1), (b64_value_char _ H2).
    cbn [Ascii.eqb Bool.eqb]. replace (nat_of_ascii a mod 4 * 16 + 0 / 16)%nat
      with (nat_of_ascii a mod 4 * 16)%nat in E1 by (cbn; lia).
    rewrite E1, ascii_nat_embedding. reflexivity.
  - pose proof (byte_bound a) as Ha. pose proof (byte_bound b) as Hb.
    destruct (sextets_in_range _ _ 0 Ha Hb ltac:(lia)) as (H1 & H2 & _ & _ & _ & H3).
    destruct (bytes_from_sextets _ _ 0 Ha Hb ltac:(lia)) as (E1 & E2 & _).
    replace (nat_of_ascii b mod 16 * 4 + 0 / 64)%nat
      with (nat_of_ascii b mod 16 * 4)%nat in E2 by (cbn; lia).
    cbn [b64encode b64decode]. cbv zeta.
    rewrite (b64_value_char _ H1), (b64_value_char _ H2), (b64_value_char _ H3).
    rewrite (b64_char_not_pad _ H3). cbn [Ascii.eqb Bool.eqb].
    rewrite E1, E2, !ascii_nat_embedding. reflexivity.
  - pose proof (byte_bound a) as Ha. pose proof (byte_bound b) as Hb.
    pose proof (byte_bound c) as Hc.
    destruct (sextets_in_range _ _ _ Ha Hb Hc) as (H1 & H2 & H3 & H4 & _ & _).
    destruct (bytes_from_sextets _ _ _ Ha Hb Hc) as (E1 & E2 & E3).
    cbn [b64encode]. cbv zeta. cbn [b64decode].
    rewrite (b64_value_char _ H1), (b64_value_char _ H2), (b64_value_char _ H3),
      (b64_value_char _ H4), (b64_char_not_pad _ H3), (b64_char_not_pad _ H4), IH.
    rewrite E1, E2, E3, !ascii_nat_embedding. reflexivity.
Qed.

Lemma is_b64_char n : (n < 64)%nat ->
  bool_decide (is_Some (b64_value (b64_char n))) || Ascii.eqb (b64_char n) "=" = true.
Proof.
  intros Hn. rewrite (b64_value_char _ Hn).
  apply orb_true_iff. left. apply bool_decide_eq_true. eexists. reflexivity.
Qed.

Lemma b64encode_text s : is_b64_text (b64encode s) = true.
Proof.
  induction s as [|a|a b|a b c rest IH] using string_ind3.
  - reflexivity.
  - pose proof (byte_bound a) as Ha.
    destruct (sextets_in_range _ 0 0 Ha ltac:(lia) ltac:(lia)) as (H1 & _ & _ & _ & H2 & _).
    cbn [b64encode is_b64_text]. cbv zeta.
    rewrite (is_b64_char _ H1), (is_b64_char _ H2). reflexivity.
  - pose proof (byte_bound a) as Ha. pose proof (byte_bound b) as Hb.
    destruct (sextets_in_range _ _ 0 Ha Hb ltac:(lia)) as (H1 & H2 & _ & _ & _ & H3).
    cbn [b64encode is_b64_text]. cbv zeta.
    rewrite (is_b64_char _ H1), (is_b64_char _ H2), (is_b64_char _ H3). reflexivity.
  - pose proof (byte_bound a) as Ha. pose proof (byte_bound b) as Hb.
    pose proof (byte_bound c) as Hc.
    destruct (sextets_in_range _ _ _ Ha Hb Hc) as (H1 & H2 & H3 & H4 & _ & _).
    cbn [b64encode]. cbv zeta. cbn [is_b64_text].
    rewrite (is_b64_char _ H1), (is_b64_char _ H2), (is_b64_char _ H3), (is_b64_char _ H4), IH.
    reflexivity.
Qed.

Lemma length_b64encode s :
  String.length (b64encode s) = (4 * ((String.length s + 2) / 3))%nat.
Proof.
  induction s as [|a|a b|a b c rest IH] using string_ind3; try reflexivity.
  cbn [b64encode]. cbv zeta. cbn [String.length]. rewrite IH.
  replace (S (S (S (String.length rest))) + 2)%nat
    with (1 * 3 + (String.length rest + 2))%nat by lia.
  rewrite Nat.div_add_l by lia. lia.
Qed.

End Base64Facts.

Lemma partition_colon_append u v :
  PyStr.contains ":" u = false -> partition_colon (u +:+ ":" +:+ v) = (u, v).
Proof.
  induction u as [|a u IH].
  - intros _. reflexivity.
  - cbn [PyStr.contains]. intros H. apply orb_false_iff in H as [Ha Hu].
    rewrite PyStrFacts.append_cons. cbn [partition_colon]. rewrite Ha, (IH Hu). reflexivity.
Qed.

(** X7.  The text [encode_credentials] returns decodes, as base64, to the
    client id, a colon and the secret, for every id and secret; when the id
    holds no colon, cutting the decoded text at its first colon gives back
    the id and the secret. *)
Theorem encode_credentials_decodes client_id client_secret :
  Base64.b64decode (encode_credentials client_id client_secret)
  = Some (client_id +:+ ":" +:+ client_secret)
  /\ (PyStr.contains ":" client_id = false ->
      partition_colon (client_id +:+ ":" +:+ client_secret) = (client_id, client_secret)).
Proof.
  split.
  - apply Base64Facts.b64decode_b64encode.
  - intros Hid. apply partition_colon_append. exact Hid.
Qed.

Lemma encode_credentials_decodes_witness :
  PyStr.contains ":" "app_key" = false
  /\ encode_credentials "app_key" "s3cret" = "YXBwX2tleTpzM2NyZXQ="
  /\ Base64.b64decode (encode_credentials "app:key" "s3cret") = Some "app:key:s3cret"
  /\ partition_colon ("app_key" +:+ ":" +:+ "s3cret") = ("app_key", "s3cret").
Proof.
  split; [reflexivity|]. split; [reflexivity|]. split.
  - exact (proj1 (encode_credentials_decodes "app:key" "s3cret")).
  - exact (proj2 (encode_credentials_decodes "app_key" "s3cret") eq_refl).
Defined.

(** X8.  Two credential pairs whose ids hold no colon are encoded to the
    same text only if they are the same pair. *)
Theorem encode_credentials_injective id1 secret1 id2 secret2 :
  PyStr.contains ":" id1 = false ->
  PyStr.contains ":" id2 = false ->
  encode_credentials id1 secret1 = encode_credentials id2 secret2 ->
  id1 = id2 /\ secret1 = secret2.
Proof.
  intros H1 H2 Heq.
  assert (Hdec : Some (id1 +:+ ":" +:+ secret1) = Some (id2 +:+ ":" +:+ secret2)).
  { rewrite <- !Base64Facts.b64decode_b64encode. unfold encode_credentials in Heq.
    rewrite Heq. reflexivity. }
  injection Hdec as Hcat.
  assert (Hpair : (id1, secret1) = (id2, secret2)).
  { rewrite <- (partition_colon_append id1 secret1 H1),
            <- (partition_colon_append id2 secret2 H2), Hcat. reflexivity. }
  injection Hpair as -> ->. split; reflexivity.
Qed.

Lemma encode_credentials_injective_witness :
  PyStr.contains ":" "app_key" = false
  /\ encode_credentials "app_key" "s3cret" = encode_credentials "app_key" ("s3" +:+ "cret")
  /\ "s3cret" = "s3" +:+ "cret".
Proof.
  split; [reflexivity|]. split; [reflexivity|].
  exact (proj2 (encode_credentials_injective "app_key" "s3cret" "app_key" ("s3" +:+ "cret")
                  eq_refl eq_refl eq_refl)).
Defined.

(** X9.  The encoded credentials are one unbroken base64 token: only
    alphabet characters and [=] padding (no line break or space), never
    empty, of length four times the number of three-byte groups of
    [id:secret], rounded up. *)
Theorem encode_credentials_shape client_id client_secret :
  Base64.is_b64_text (encode_credentials client_id client_secret) = true
  /\ String.length (encode_credentials client_id client_secret)
     = (4 * ((String.length client_id + String.length client_secret + 3) / 3))%nat
  /\ (4 <= String.length (encode_credentials client_id client_secret))%nat.
Proof.
  unfold encode_credentials.
  assert (Hlen : String.length (Base64.b64encode (client_id +:+ ":" +:+ client_secret))
                 = (4 * ((String.length client_id + String.length client_secret + 3) / 3))%nat).
  { rewrite Base64Facts.length_b64encode, !QuoteFacts.length_append. cbn [String.length].
    f_equal. f_equal. lia. }
  split; [apply Base64Facts.b64encode_text|]. split; [exact Hlen|].
  rewrite Hlen. zify. Z.to_euclidean_division_equations. lia.
Qed.

(** ** More on [build_url] *)

Module BuildUrlFacts.
Import PyStr PyStrFacts.

Lemma lstrip_replicate c n s : lstrip c (replicate_char n c +:+ s) = lstrip c s.
Proof.
  induction n as [|n IH]; [reflexivity|].
  cbn [replicate_char]. rewrite append_cons. cbn [lstrip].
  rewrite Ascii.eqb_refl. exact IH.
Qed.

Lemma rstrip_replicate_only c n : rstrip c (replicate_char n c) = EmptyString.
Proof.
  induction n as [|n IH]; [reflexivity|].
  cbn [replicate_char rstrip]. rewrite IH, Ascii.eqb_refl. reflexivity.
Qed.

Lemma rstrip_replicate c n s : rstrip c (s +:+ replicate_char n c) = rstrip c s.
Proof.
  induction s as [|a s IH].
  - rewrite append_nil. apply rstrip_replicate_only.
  - rewrite append_cons. cbn [rstrip]. rewrite IH. reflexivity.
Qed.

Lemma plus_to_space_append s t :
  Quote.plus_to_space (s +:+ t) = Quote.plus_to_space s +:+ Quote.plus_to_space t.
Proof.
  induction s as [|a s IH]; [reflexivity|].
  rewrite append_cons. cbn [Quote.plus_to_space]. rewrite IH. reflexivity.
Qed.

Lemma unquote_plus_quote_byte a rest :
  Quote.unquote (Quote.plus_to_space (Urllib.quote_byte a) +:+ rest)
  = String a (Quote.unquote rest).
Proof.
  destruct a as [[] [] [] [] [] [] [] []];
    first [ reflexivity
          | match goal with
            | |- Quote.unquote (?q +:+ ?r) = String ?c _ => change (q +:+ r) with (String c r)
            end; apply QuoteFacts.unquote_literal; discriminate ].
Qed.

(** [unquote_plus] reads back what [quote_plus] wrote. *)
Lemma unquote_plus_quote_plus s : Quote.unquote_plus (Urllib.quote_plus s) = s.
Proof.
  unfold Quote.unquote_plus. induction s as [|a s IH]; [reflexivity|].
  cbn [Urllib.quote_plus]. rewrite plus_to_space_append, unquote_plus_quote_byte, IH.
  reflexivity.
Qed.

End BuildUrlFacts.

(** X10.  Extra slashes where base and endpoint meet do not change the URL:
    any number of trailing slashes on the base and of leading slashes on the
    endpoint give the same result. *)
Theorem build_url_slash_insensitive base endpoint params i j :
  build_url (base +:+ PyStr.replicate_char i "/") (PyStr.replicate_char j "/" +:+ endpoint) params
  = build_url base endpoint params.
Proof.
  rewrite !build_url_unfold. cbv zeta.
  rewrite BuildUrlFacts.rstrip_replicate, BuildUrlFacts.lstrip_replicate. reflexivity.
Qed.

(** X11.  When at least one parameter has a value other than [None], the
    text after the [?] that [build_url] appends, split on [&] and [=] and
    percent-decoded with [unquote_plus], is exactly the list of names and
    [str] values of those parameters, in order: no value can add, hide or
    alter another parameter. *)
Theorem build_url_query_decodes base endpoint params :
  kept_params params <> [] ->
  exists q,
    build_url base endpoint params
    = (PyStr.rstrip "/" base +:+ "/" +:+ PyStr.lstrip "/" endpoint) +:+ "?" +:+ q
    /\ map (map Quote.unquote_plus) (map (PyStr.split "=") (PyStr.split "&" q))
       = map (fun kv => [fst kv; py_str (snd kv)]) (kept_params params).
Proof.
  intros Hne. rewrite build_url_unfold. cbv zeta.
  destruct (kept_params params) as [|kv fp] eqn:Hk; [congruence|].
  exists (Urllib.urlencode (kv :: fp)). split; [reflexivity|].
  rewrite UrllibFacts.urlencode_parse by discriminate.
  rewrite map_map. apply map_ext. intros [k v]. cbn [map fst snd].
  rewrite !BuildUrlFacts.unquote_plus_quote_plus. reflexivity.
Qed.

Lemma build_url_query_decodes_witness :
  let params := Some [("symbol", PStr "BRK/B & co"); ("fields", PNone); ("n", PInt 3)] in
  kept_params params <> []
  /\ exists q,
       build_url "https://h/" "/quotes" params = "https://h/quotes" +:+ "?" +:+ q
       /\ map (map Quote.unquote_plus) (map (PyStr.split "=") (PyStr.split "&" q))
          = [["symbol"; "BRK/B & co"]; ["n"; "3"]].
Proof.
  intros params.
  assert (Hne : kept_params params <> []) by discriminate.
  split; [exact Hne|].
  destruct (build_url_query_decodes "https://h/" "/quotes" params Hne) as (q & Hq & Hdec).
  exists q. split; [exact Hq | exact Hdec].
Defined.

(** ** More on [_handle_response] *)

Lemma error_msg_of_outcome r :
  match json_body r with
  | Some d =>
      if type_error_body d then error_msg_of r = Raise ExTypeError
      else exists msg, error_msg_of r = Return msg
  | None => exists msg, error_msg_of r = Return msg
  end.
Proof.
  unfold error_msg_of. destruct (json_body r) as [d|]; [|eexists; reflexivity].
  destruct d as [| b | n | s | items | fields]; cbn [type_error_body py_in obind];
    try reflexivity.
  - destruct (is_substring "message" s); cbn [orb obind py_getitem]; [reflexivity|].
    destruct (is_substring "error" s); cbn [obind py_getitem];
      [reflexivity | eexists; reflexivity].
  - destruct (existsb (json_is_str "message") items); cbn [orb obind py_getitem];
      [reflexivity|].
    destruct (existsb (json_is_str "error") items); cbn [obind py_getitem];
      [reflexivity | eexists; reflexivity].
  - cbn [py_getitem].
    destruct (dict_get "message" fields) as [m|].
    + replace (bool_decide (is_Some (Some m))) with true
        by (symmetry; apply bool_decide_eq_true; eexists; reflexivity).
      eexists. reflexivity.
    + replace (bool_decide (is_Some (@None json))) with false
        by (symmetry; apply bool_decide_eq_false; intros [? ?]; discriminate).
      destruct (dict_get "error" fields) as [m|].
      * replace (bool_decide (is_Some (Some m))) with true
          by (symmetry; apply bool_decide_eq_true; eexists; reflexivity).
        eexists. reflexivity.
      * replace (bool_decide (is_Some (@None json))) with false
          by (symmetry; apply bool_decide_eq_false; intros [? ?]; discriminate).
        eexists. reflexivity.
Qed.

Lemma in_2xx_true r :
  (200 <=? status_code r) && (status_code r <? 300) = true <-> 200 <= status_code r < 300.
Proof. rewrite andb_true_iff, Z.leb_le, Z.ltb_lt. reflexivity. Qed.

(** Outside 2xx the result is [TypeError] on the bodies singled out by
    [type_error_body], and the API error of the status otherwise. *)
Lemma _handle_response_non_2xx r :
  (200 <=? status_code r) && (status_code r <? 300) = false ->
  match json_body r with
  | Some d =>
      if type_error_body d then _handle_response r = Raise ExTypeError
      else exists msg, _handle_response r
             = Raise (ExAPI (mkApiError (kind_of_status (status_code r)) msg
                               (Some (status_code r)) (Some r)))
  | None => exists msg, _handle_response r
              = Raise (ExAPI (mkApiError (kind_of_status (status_code r)) msg
                                (Some (status_code r)) (Some r)))
  end.
Proof.
  intros Hout. unfold _handle_response. rewrite Hout.
  pose proof (error_msg_of_outcome r) as H.
  destruct (json_body r) as [d|].
  - destruct (type_error_body d).
    + rewrite H. reflexivity.
    + destruct H as [msg ->]. exists msg. reflexivity.
  - destruct H as [msg ->]. exists msg. reflexivity.
Qed.

Lemma _handle_response_2xx_returns r :
  (200 <=? status_code r) && (status_code r <? 300) = true ->
  exists v, _handle_response r = Return v.
Proof.
  intros Hin. unfold _handle_response. rewrite Hin.
  destruct ((status_code r =? 204) || negb (str_truthy (content r)));
    [|destruct (json_body r)]; eexists; reflexivity.
Qed.

(** What [_handle_response] raises is a [TypeError] or an API error. *)
Lemma _handle_response_raises r e :
  _handle_response r = Raise e ->
  e = ExTypeError \/ exists err, e = ExAPI err.
Proof.
  intros Hr.
  destruct ((200 <=? status_code r) && (status_code r <? 300)) eqn:Hrange.
  - destruct (_handle_response_2xx_returns r Hrange) as [v Hv]. congruence.
  - pose proof (_handle_response_non_2xx r Hrange) as H.
    destruct (json_body r) as [d|]; [destruct (type_error_body d)|].
    + left. congruence.
    + destruct H as [msg H]. right. rewrite H in Hr. injection Hr as <-.
      eexists. reflexivity.
    + destruct H as [msg H]. right. rewrite H in Hr. injection Hr as <-.
      eexists. reflexivity.
Qed.

(** X12.  On a response whose [json()] returns a value or raises
    [ValueError], [_handle_response] returns a value exactly on the 2xx
    statuses: no other status yields a value, and a 2xx status does not
    raise. *)
Theorem _handle_response_returns_iff_2xx r :
  json_returns_or_value_error r ->
  ((exists v, _handle_response r = Return v) <-> 200 <= status_code r < 300).
Proof.
  intros _. rewrite <- in_2xx_true. split.
  - intros [v Hv].
    destruct ((200 <=? status_code r) && (status_code r <? 300)) eqn:Hrange; [reflexivity|].
    pose proof (_handle_response_non_2xx r Hrange) as H.
    destruct (json_body r) as [d|]; [destruct (type_error_body d)|].
    + congruence.
    + destruct H as [msg H]. congruence.
    + destruct H as [msg H]. congruence.
  - apply _handle_response_2xx_returns.
Qed.

(** X13.  [_handle_response] raises [TypeError], instead of an API error,
    exactly on a non-2xx response whose body parses to JSON that is not an
    object and is a scalar ([null], a boolean, a number), a string holding
    [message] or [error], or a list with [message] or [error] as an element. *)
Theorem _handle_response_type_error_iff r :
  _handle_response r = Raise ExTypeError
  <-> ~ (200 <= status_code r < 300)
      /\ exists d, json_body r = Some d /\ type_error_body d = true.
Proof.
  rewrite <- in_2xx_true. split.
  - intros Hr.
    destruct ((200 <=? status_code r) && (status_code r <? 300)) eqn:Hrange.
    + destruct (_handle_response_2xx_returns r Hrange) as [v Hv]. congruence.
    + split; [discriminate|].
      pose proof (_handle_response_non_2xx r Hrange) as H.
      destruct (json_body r) as [d|].
      * destruct (type_error_body d) eqn:Hd.
        -- exists d. split; [reflexivity | exact Hd].
        -- destruct H as [msg H]. congruence.
      * destruct H as [msg H]. congruence.
  - intros [Hrange (d & Hd & Ht)]. apply not_true_is_false in Hrange.
    pose proof (_handle_response_non_2xx r Hrange) as H.
    rewrite Hd, Ht in H. exact H.
Qed.

(** X14.  On a response whose [json()] returns a value or raises
    [ValueError], whatever [_handle_response] raises other than that
    [TypeError] is the exception class of the status code, carrying the
    status code and the response itself; in particular no [KeyError] or
    [ValueError] escapes. *)
Theorem _handle_response_raises_api_error r e :
  json_returns_or_value_error r ->
  _handle_response r = Raise e ->
  e <> ExTypeError ->
  ~ (200 <= status_code r < 300)
  /\ exists msg,
       e = ExAPI (mkApiError (kind_of_status (status_code r)) msg
                    (Some (status_code r)) (Some r)).
Proof.
  intros _ Hr Hne. rewrite <- in_2xx_true.
  destruct ((200 <=? status_code r) && (status_code r <? 300)) eqn:Hrange.
  - destruct (_handle_response_2xx_returns r Hrange) as [v Hv]. congruence.
  - split; [discriminate|].
    pose proof (_handle_response_non_2xx r Hrange) as H.
    destruct (json_body r) as [d|]; [destruct (type_error_body d)|].
    + congruence.
    + destruct H as [msg H]. exists msg. congruence.
    + destruct H as [msg H]. exists msg. congruence.
Qed.

Lemma _handle_response_raises_api_error_witness :
  let r := mkResponse 429 "content" "slow down" None in
  _handle_response r
  = Raise (ExAPI (mkApiError RateLimitError (JStr "slow down") (Some 429) (Some r)))
  /\ json_returns_or_value_error r
  /\ exists msg,
       ExAPI (mkApiError RateLimitError (JStr "slow down") (Some 429) (Some r))
       = ExAPI (mkApiError (kind_of_status 429) msg (Some 429) (Some r)).
Proof.
  intros r. split; [reflexivity|].
  assert (Hjson : json_returns_or_value_error r) by (left; reflexivity).
  split; [exact Hjson|].
  exact (proj2 (_handle_response_raises_api_error r _ Hjson eq_refl ltac:(discriminate))).
Defined.

Lemma _handle_response_returns_iff_2xx_witness :
  200 <= 201 < 300
  /\ json_returns_or_value_error (mkResponse 201 "created" "created" None)
  /\ exists v, _handle_response (mkResponse 201 "created" "created" None) = Return v.
Proof.
  assert (Hjson : json_returns_or_value_error (mkResponse 201 "created" "created" None))
    by (left; reflexivity).
  split; [lia|]. split; [exact Hjson|].
  apply (proj2 (_handle_response_returns_iff_2xx
                  (mkResponse 201 "created" "created" None) Hjson)).
  cbn. lia.
Defined.

Lemma _handle_response_type_error_iff_witness :
  let r := mkResponse 502 "null" "null" (Some JNull) in
  ~ (200 <= status_code r < 300)
  /\ type_error_body JNull = true
  /\ _handle_response r = Raise ExTypeError.
Proof.
  intros r.
  assert (H1 : ~ (200 <= status_code r < 300)) by (cbn; lia).
  split; [exact H1|]. split; [reflexivity|].
  apply (proj2 (_handle_response_type_error_iff r)).
  split; [exact H1|]. exists JNull. split; reflexivity.
Defined.

(** ** More on [_request] *)

Section RequestFacts.

Variable urljoin : string -> string -> string.

(** The handler re-raises everything but the three transport classes. *)
Lemma request_handler_passes self e tr :
  (forall s, e <> ExTimeout s) ->
  (forall s, e <> ExConnectionError s) ->
  (forall s, e <> ExRequestException s) ->
  request_handler self e tr = (Raise e, tr).
Proof.
  intros H1 H2 H3. destruct e; try reflexivity.
  - destruct (H1 e). reflexivity.
  - destruct (H2 e). reflexivity.
  - destruct (H3 e). reflexivity.
Qed.

(** X15.  For a request whose extra keyword arguments repeat neither [url]
    nor [timeout] (its [headers] argument, if any, being a dict): once the
    transport has answered, [_request] returns or
    raises exactly what [_handle_response] makes of the response: the
    [except] clauses rewrite neither its API errors nor its [TypeError].
    And an exception of the transport outside the three [requests] classes
    reaches the caller as it is. *)
Theorem _request_passes_through self method endpoint params json_arg kwargs tr tok :
  auth self (token_calls tr) = Return tok ->
  kwargs_collide kwargs = false ->
  let req := outgoing urljoin self method endpoint params json_arg kwargs tok in
  match _session self (transport_calls tr) req with
  | Return response =>
      _request urljoin self method endpoint params json_arg kwargs tr
      = (_handle_response response, tr ++ [CallGetAccessToken; CallSessionRequest req])
  | Raise e =>
      (forall s, e <> ExTimeout s) ->
      (forall s, e <> ExConnectionError s) ->
      (forall s, e <> ExRequestException s) ->
      _request urljoin self method endpoint params json_arg kwargs tr
      = (Raise e, tr ++ [CallGetAccessToken; CallSessionRequest req])
  end.
Proof.
  intros Hauth Hcol req.
  rewrite (_request_token_success urljoin _ _ _ _ _ _ _ _ Hauth Hcol). cbv zeta.
  rewrite transport_calls_token. fold req. rewrite <- app_assoc. cbn [app].
  destruct (_session self (transport_calls tr) req) as [response|e].
  - destruct (_handle_response response) as [v|e] eqn:Hr; [reflexivity|].
    apply request_handler_passes;
      intros s ->; destruct (_handle_response_raises _ _ Hr) as [H | [err H]]; discriminate.
  - intros H1 H2 H3. apply request_handler_passes; assumption.
Qed.

(** X16.  Leading slashes of the endpoint make no difference to a request:
    result and trace are the same with any number of them. *)
Theorem _request_leading_slashes self method endpoint params json_arg kwargs tr j :
  _request urljoin self method (PyStr.replicate_char j "/" +:+ endpoint) params json_arg kwargs tr
  = _request urljoin self method endpoint params json_arg kwargs tr.
Proof.
  unfold _request. rewrite BuildUrlFacts.lstrip_replicate. reflexivity.
Qed.





End RequestFacts.

Lemma _request_passes_through_witness :
  let r := mkResponse 404 "content" "{'message': 'not found'}"
             (Some (JObj [("message", JStr "not found")])) in
  let self := test_client (always (Return r)) in
  auth self 0%nat = Return "fake_token"
  /\ kwargs_collide no_kwargs = false
  /\ fst (get simple_urljoin self "/trader/v1/accounts/ABC" None no_kwargs [])
     = Raise (ExAPI (mkApiError NotFoundError (JStr "not found") (Some 404) (Some r))).
Proof.
  intros r self.
  assert (Hauth : auth self (token_calls []) = Return "fake_token") by reflexivity.
  assert (Hcol : kwargs_collide no_kwargs = false) by reflexivity.
  split; [exact Hauth|]. split; [exact Hcol|].
  pose proof (_request_passes_through simple_urljoin self "GET" "/trader/v1/accounts/ABC" None None
                no_kwargs [] "fake_token" Hauth Hcol) as H.
  cbv zeta in H. cbn [self test_client _session always] in H.
  unfold get. rewrite H. reflexivity.
Defined.


(** ** [accounts.py] and [orders.py]: what goes on the wire *)

Lemma snd_bind_lift {A B} (m : Py A) (f : A -> Outcome B) tr :
  snd ((x <- m ;; lift (f x)) tr) = snd (m tr).
Proof. unfold bind, lift. destruct (m tr) as [[a|e] tr']; reflexivity. Qed.

Section WireFacts.

Variable urljoin : string -> string -> string.
Variables Account Order : Type.
Variable Account_from_dict : json -> Outcome Account.
Variable Order_from_dict : json -> Outcome Order.

(** The request a wrapper sends when it passes no [headers]. *)
Lemma outgoing_no_kwargs self method endpoint params json_arg tok :
  outgoing urljoin self method endpoint params json_arg no_kwargs tok
  = mkOutReq method (urljoin BASE_URL (PyStr.lstrip "/" endpoint)) params json_arg
      {[ "Authorization" := "Bearer " +:+ tok ]} (timeout self) [].
Proof. reflexivity. Qed.

(** X18.  [get_account] and [get_accounts] build a [params] dict from
    [fields] and then call [get] without it: whatever [fields] is, the one
    request sent is a GET of the accounts path with no query parameters. *)
Theorem get_account_sends_no_fields session account_number fields tr tok :
  auth session (token_calls tr) = Return tok ->
  snd (Accounts.get_account urljoin Account Account_from_dict session account_number fields tr)
  = tr ++ [CallGetAccessToken;
           CallSessionRequest
             (mkOutReq "GET" (urljoin BASE_URL ("trader/v1/accounts/" +:+ account_number))
                None None {[ "Authorization" := "Bearer " +:+ tok ]} (timeout session) [])]
  /\ snd (Accounts.get_accounts urljoin Account Account_from_dict session fields tr)
     = tr ++ [CallGetAccessToken;
              CallSessionRequest
                (mkOutReq "GET" (urljoin BASE_URL "trader/v1/accounts")
                   None None {[ "Authorization" := "Bearer " +:+ tok ]} (timeout session) [])].
Proof.
  intros Hauth. unfold Accounts.get_account, Accounts.get_accounts, get. cbv zeta.
  rewrite !snd_bind_lift.
  rewrite !(_request_trace_plain urljoin _ _ _ _ _ _ _ Hauth).
  rewrite !outgoing_no_kwargs. split; reflexivity.
Qed.

(** X19.  [get_orders] always sends [maxResults], whatever its value, and
    sends each of [fromEnteredTime], [toEnteredTime] and [status] exactly
    when the argument is a non-empty string. *)
Theorem get_orders_params session account_number max_results
    from_entered_time to_entered_time status tr tok :
  auth session (token_calls tr) = Return tok ->
  exists req ps,
    snd (Accounts.get_orders urljoin Order Order_from_dict session account_number max_results
           from_entered_time to_entered_time status tr)
    = tr ++ [CallGetAccessToken; CallSessionRequest req]
    /\ req_method req = "GET"
    /\ req_url req
       = urljoin BASE_URL ("trader/v1/accounts/" +:+ account_number +:+ "/orders")
    /\ req_params req = Some ps
    /\ params_get "maxResults" ps = Some (PInt max_results)
    /\ forall key arg,
         In (key, arg) [("fromEnteredTime", from_entered_time);
                        ("toEnteredTime", to_entered_time); ("status", status)] ->
         params_get key ps
         = match arg with
           | Some s => if String.eqb s "" then None else Some (PStr s)
           | None => None
           end.
Proof.
  intros Hauth. unfold Accounts.get_orders, get. cbv zeta.
  rewrite snd_bind_lift, (_request_trace_plain urljoin _ _ _ _ _ _ _ Hauth).
  rewrite outgoing_no_kwargs. eexists _, _. split; [reflexivity|].
  split; [reflexivity|]. split; [reflexivity|]. split; [reflexivity|].
  unfold Accounts.orders_params, set_if_truthy, str_truthy.
  destruct from_entered_time as [f|]; [destruct (String.eqb f "") eqn:Hf|];
    (destruct to_entered_time as [t|]; [destruct (String.eqb t "") eqn:Ht|]);
    (destruct status as [s|]; [destruct (String.eqb s "") eqn:Hs|]);
    (split; [reflexivity|]);
    intros key arg [Hin | [Hin | [Hin | []]]]; injection Hin as <- <-;
    cbn; rewrite ?Hf, ?Ht, ?Hs; reflexivity.
Qed.

(** X20.  [place_order] never transmits an order twice: it makes the
    token call and then at most one transport call, a POST to the account's
    orders path whose JSON body is the order as given. *)
Theorem place_order_sends_once session account_number order tr :
  snd (Orders.place_order urljoin session account_number order tr)
  = tr ++ [CallGetAccessToken]
  \/ exists tok,
       snd (Orders.place_order urljoin session account_number order tr)
       = tr ++ [CallGetAccessToken;
                CallSessionRequest
                  (mkOutReq "POST"
                     (urljoin BASE_URL ("trader/v1/accounts/" +:+ account_number +:+ "/orders"))
                     None (Some order) {[ "Authorization" := "Bearer " +:+ tok ]}
                     (timeout session) [])].
Proof.
  unfold Orders.place_order, post. cbv zeta.
  destruct (auth session (token_calls tr)) as [tok|e] eqn:Hauth.
  - right. exists tok.
    rewrite (_request_trace_plain urljoin _ _ _ _ _ _ _ Hauth). reflexivity.
  - left. rewrite (_request_token_failure urljoin _ _ _ _ _ _ _ _ Hauth). reflexivity.
Qed.

(** X21.  [replace_order], [cancel_order] and [get_order] address one and
    the same URL for an account and an order id, with the verbs PUT, DELETE
    and GET; only [replace_order] carries a body, the new order. *)
Theorem order_calls_share_url session account_number order_id order tr tok :
  auth session (token_calls tr) = Return tok ->
  let url := urljoin BASE_URL
               ("trader/v1/accounts/" +:+ account_number +:+ "/orders/" +:+ order_id) in
  let sent m body :=
    tr ++ [CallGetAccessToken;
           CallSessionRequest
             (mkOutReq m url None body {[ "Authorization" := "Bearer " +:+ tok ]}
                (timeout session) [])] in
  snd (Orders.replace_order urljoin session account_number order_id order tr)
  = sent "PUT" (Some order)
  /\ snd (Orders.cancel_order urljoin session account_number order_id tr) = sent "DELETE" None
  /\ snd (Accounts.get_order urljoin Order Order_from_dict session account_number order_id tr)
     = sent "GET" None.
Proof.
  intros Hauth url sent.
  unfold Orders.replace_order, Orders.cancel_order, Accounts.get_order, put, delete, get.
  cbv zeta. rewrite snd_bind_lift.
  rewrite !(_request_trace_plain urljoin _ _ _ _ _ _ _ Hauth).
  repeat split; reflexivity.
Qed.

(** X22.  Account numbers and order ids are pasted into the path as they
    are, unescaped: an order id that contains [/orders/] addresses the same
    endpoint as the longer account path with the shorter id. *)
Theorem cancel_order_path_unescaped session account_number x y tr :
  Orders.cancel_order urljoin session account_number (x +:+ "/orders/" +:+ y) tr
  = Orders.cancel_order urljoin session (account_number +:+ "/orders/" +:+ x) y tr.
Proof.
  unfold Orders.cancel_order. cbv zeta. f_equal.
  rewrite <- !PyStrFacts.append_assoc. reflexivity.
Qed.

End WireFacts.

Lemma get_account_sends_no_fields_witness :
  let session := test_client (always (Return ok_response)) in
  auth session 0%nat = Return "fake_token"
  /\ snd (Accounts.get_account simple_urljoin json Return session "HASH" (Some "positions") [])
     = [CallGetAccessToken; CallSessionRequest (test_req "GET" "trader/v1/accounts/HASH" None)].
Proof.
  intros session.
  assert (Hauth : auth session (token_calls []) = Return "fake_token") by reflexivity.
  split; [exact Hauth|].
  exact (proj1 (get_account_sends_no_fields simple_urljoin json Return session "HASH"
                  (Some "positions") [] "fake_token" Hauth)).
Defined.

Lemma get_orders_params_witness :
  let session := test_client (always (Return ok_response)) in
  auth session 0%nat = Return "fake_token"
  /\ exists req ps,
       snd (Accounts.get_orders simple_urljoin json Return session "HASH" 0
              (Some "") None (Some "WORKING") [])
       = [CallGetAccessToken; CallSessionRequest req]
       /\ req_params req = Some ps
       /\ params_get "maxResults" ps = Some (PInt 0)
       /\ params_get "fromEnteredTime" ps = None
       /\ params_get "status" ps = Some (PStr "WORKING").
Proof.
  intros session.
  assert (Hauth : auth session (token_calls []) = Return "fake_token") by reflexivity.
  split; [exact Hauth|].
  destruct (get_orders_params simple_urljoin json Return session "HASH" 0
              (Some "") None (Some "WORKING") [] "fake_token" Hauth)
    as (req & ps & Htr & _ & _ & Hps & Hmax & Hopt).
  exists req, ps. split; [exact Htr|]. split; [exact Hps|]. split; [exact Hmax|]. split.
  - apply (Hopt "fromEnteredTime" (Some "")). left. reflexivity.
  - apply (Hopt "status" (Some "WORKING")). right. right. left. reflexivity.
Defined.

Lemma order_calls_share_url_witness :
  let session := test_client (always (Return ok_response)) in
  auth session 0%nat = Return "fake_token"
  /\ snd (Orders.cancel_order simple_urljoin session "HASH" "123" [])
     = [CallGetAccessToken;
        CallSessionRequest (test_req "DELETE" "trader/v1/accounts/HASH/orders/123" None)].
Proof.
  intros session.
  assert (Hauth : auth session (token_calls []) = Return "fake_token") by reflexivity.
  split; [exact Hauth|].
  exact (proj1 (proj2 (order_calls_share_url simple_urljoin json Return session "HASH" "123"
                         JNull [] "fake_token" Hauth))).
Defined.

(** ** The order builders of [orders.py] *)

Section BuilderFacts.

Variable Float : Type.
Variable float_str : Float -> string.

(** What [spread_leg] raises on a leg it does not accept: the [KeyError] of
    the first missing key in the order the code reads them, else the
    [AttributeError] of a [symbol] that is no [str]. *)
Lemma spread_leg_bad leg :
  Orders.leg_ok leg = false ->
  Orders.spread_leg leg
  = Raise (match dict_get "instruction" leg, dict_get "quantity" leg, dict_get "symbol" leg with
           | None, _, _ => ExOther "KeyError: instruction"
           | Some _, None, _ => ExOther "KeyError: quantity"
           | Some _, Some _, None => ExOther "KeyError: symbol"
           | Some _, Some _, Some _ => ExAttributeError
           end).
Proof.
  unfold Orders.leg_ok, Orders.spread_leg, Orders.leg_item.
  destruct (dict_get "instruction" leg) as [ins|]; [|reflexivity].
  destruct (dict_get "quantity" leg) as [q|]; [|reflexivity].
  destruct (dict_get "symbol" leg) as [sym|]; [|reflexivity].
  destruct sym; try reflexivity. discriminate.
Qed.

Lemma spread_leg_ok leg :
  Orders.leg_ok leg = true ->
  exists ins q sym,
    dict_get "instruction" leg = Some ins
    /\ dict_get "quantity" leg = Some q
    /\ dict_get "symbol" leg = Some (JStr sym)
    /\ Orders.spread_leg leg
       = Return (Orders.order_leg ins q (JStr (PyText.upper sym)) (Orders.leg_asset_type leg)).
Proof.
  unfold Orders.leg_ok, Orders.spread_leg, Orders.leg_item.
  destruct (dict_get "instruction" leg) as [ins|]; [|discriminate].
  destruct (dict_get "quantity" leg) as [q|]; [|discriminate].
  destruct (dict_get "symbol" leg) as [sym|]; [|discriminate].
  destruct sym; try discriminate. intros _. eexists _, _, _. repeat split; reflexivity.
Qed.

Lemma map_spread_leg_ok (legs : list (list (string * json))) :
  forallb Orders.leg_ok legs = true ->
  exists order_legs,
    map_outcome Orders.spread_leg legs = Return order_legs
    /\ length order_legs = length legs
    /\ forall i leg, legs !! i = Some leg ->
         exists ins q sym,
           dict_get "instruction" leg = Some ins
           /\ dict_get "quantity" leg = Some q
           /\ dict_get "symbol" leg = Some (JStr sym)
           /\ order_legs !! i
              = Some (Orders.order_leg ins q (JStr (PyText.upper sym))
                        (Orders.leg_asset_type leg)).
Proof.
  induction legs as [|leg legs IH]; cbn [forallb map_outcome].
  - intros _. exists []. split; [reflexivity|]. split; [reflexivity|].
    intros i leg Hi. discriminate.
  - intros H. apply andb_true_iff in H as [Hleg Hlegs].
    destruct (IH Hlegs) as (order_legs & Hmap & Hlen & Hnth).
    destruct (spread_leg_ok leg Hleg) as (ins & q & sym & Hi & Hq & Hs & Hsl).
    rewrite Hsl, Hmap. cbn [obind]. eexists. split; [reflexivity|].
    split; [cbn; rewrite Hlen; reflexivity|].
    intros [|i] leg' Hleg'.
    + injection Hleg' as <-. exists ins, q, sym. repeat split; assumption || reflexivity.
    + apply (Hnth i leg' Hleg').
Qed.

Lemma map_spread_leg_bad (good : list (list (string * json))) bad rest e :
  forallb Orders.leg_ok good = true ->
  Orders.spread_leg bad = Raise e ->
  map_outcome Orders.spread_leg (good ++ bad :: rest) = Raise e.
Proof.
  intros Hgood Hbad. induction good as [|leg good IH]; cbn [app map_outcome].
  - rewrite Hbad. reflexivity.
  - cbn [forallb] in Hgood. apply andb_true_iff in Hgood as [Hleg Hgood].
    destruct (spread_leg_ok leg Hleg) as (ins & q & sym & _ & _ & _ & Hsl).
    rewrite Hsl, (IH Hgood). reflexivity.
Qed.

(** X23.  When every leg has [instruction], [quantity] and a [str]
    [symbol] of ASCII text, [build_spread_order] returns an order whose leg collection has
    one entry per input leg, in the same order, each with the leg's
    instruction and quantity, its symbol in upper case and its [assetType]
    or, without one, [OPTION]; the order has a [price] exactly when one is
    given and never a [stopPrice]. *)
Theorem build_spread_order_legs legs order_type price session duration :
  forallb Orders.leg_ok legs = true ->
  forallb Orders.leg_symbol_ascii legs = true ->
  exists order order_legs,
    Orders.build_spread_order Float float_str legs order_type price session duration
    = Return order
    /\ json_get "orderLegCollection" order = Some (JArr order_legs)
    /\ length order_legs = length legs
    /\ (forall i leg, legs !! i = Some leg ->
          exists ins q sym,
            dict_get "instruction" leg = Some ins
            /\ dict_get "quantity" leg = Some q
            /\ dict_get "symbol" leg = Some (JStr sym)
            /\ order_legs !! i
               = Some (Orders.order_leg ins q (JStr (PyText.upper sym))
                         (Orders.leg_asset_type leg)))
    /\ json_get "price" order = option_map (fun p => JStr (float_str p)) price
    /\ json_get "stopPrice" order = None.
Proof.
  intros Hok _. destruct (map_spread_leg_ok legs Hok) as (order_legs & Hmap & Hlen & Hnth).
  unfold Orders.build_spread_order. rewrite Hmap. cbn [obind]. cbv zeta.
  eexists _, order_legs. split; [reflexivity|].
  destruct price as [p|]; repeat split; try reflexivity; assumption.
Qed.

(** X24.  [build_spread_order] fails on the first leg it does not accept,
    without looking at later legs: with a [KeyError] for the first of
    [instruction], [quantity], [symbol] that the leg lacks, or an
    [AttributeError] when its [symbol] is not a [str].  It returns an order
    only when every leg is accepted. *)
Theorem build_spread_order_first_bad_leg good bad rest order_type price session duration :
  forallb Orders.leg_ok good = true ->
  Orders.leg_ok bad = false ->
  Orders.build_spread_order Float float_str (good ++ bad :: rest) order_type price
    session duration
  = Raise (match dict_get "instruction" bad, dict_get "quantity" bad, dict_get "symbol" bad with
           | None, _, _ => ExOther "KeyError: instruction"
           | Some _, None, _ => ExOther "KeyError: quantity"
           | Some _, Some _, None => ExOther "KeyError: symbol"
           | Some _, Some _, Some _ => ExAttributeError
           end).
Proof.
  intros Hgood Hbad. unfold Orders.build_spread_order.
  rewrite (map_spread_leg_bad good bad rest _ Hgood (spread_leg_bad bad Hbad)). reflexivity.
Qed.

(** X25.  An option order is the equity order of the same arguments with
    [complexOrderStrategyType] added and the leg's [assetType] changed:
    every other key has the same value in both, [price] and [stopPrice]
    included, each present exactly when the argument is not [None]. *)
Theorem build_option_order_vs_equity symbol quantity instruction order_type session duration
    price stop_price key :
  key <> "complexOrderStrategyType" ->
  key <> "orderLegCollection" ->
  json_get key (Orders.build_option_order Float float_str symbol quantity instruction
                  order_type session duration price stop_price)
  = json_get key (Orders.build_equity_order Float float_str symbol quantity instruction
                    order_type session duration price stop_price)
  /\ json_get "price" (Orders.build_equity_order Float float_str symbol quantity instruction
                         order_type session duration price stop_price)
     = option_map (fun p => JStr (float_str p)) price
  /\ json_get "stopPrice" (Orders.build_equity_order Float float_str symbol quantity instruction
                             order_type session duration price stop_price)
     = option_map (fun p => JStr (float_str p)) stop_price.
Proof.
  intros Hc Hl.
  apply String.eqb_neq in Hc. rewrite String.eqb_sym in Hc.
  apply String.eqb_neq in Hl. rewrite String.eqb_sym in Hl.
  unfold Orders.build_option_order, Orders.build_equity_order, Orders.set_price, json_get.
  split; [|destruct price as [p|], stop_price as [sp|]; split; reflexivity].
  destruct price as [p|], stop_price as [sp|];
    cbn [dict_set String.eqb Ascii.eqb Bool.eqb]; cbn [dict_get];
    rewrite Hc, Hl; reflexivity.
Qed.

End BuilderFacts.

Lemma build_spread_order_legs_witness :
  let legs := [[("symbol", JStr "aapl 240315c00150000"); ("quantity", JNum 1);
                ("instruction", JStr "BUY_TO_OPEN")];
               [("symbol", JStr "AAPL 240315C00155000"); ("quantity", JNum 1);
                ("instruction", JStr "SELL_TO_OPEN"); ("assetType", JStr "EQUITY")]] in
  forallb Orders.leg_ok legs = true
  /\ forallb Orders.leg_symbol_ascii legs = true
  /\ exists order order_legs,
       Orders.build_spread_order Z pretty legs "NET_DEBIT" None "NORMAL" "DAY" = Return order
       /\ json_get "orderLegCollection" order = Some (JArr order_legs)
       /\ length order_legs = 2%nat.
Proof.
  intros legs.
  assert (Hok : forallb Orders.leg_ok legs = true) by reflexivity.
  assert (Hascii : forallb Orders.leg_symbol_ascii legs = true) by reflexivity.
  split; [exact Hok|]. split; [exact Hascii|].
  destruct (build_spread_order_legs Z pretty legs "NET_DEBIT" None "NORMAL" "DAY" Hok Hascii)
    as (order & order_legs & Hret & Hcol & Hlen & _).
  exists order, order_legs. split; [exact Hret|]. split; [exact Hcol | exact Hlen].
Defined.

Lemma build_spread_order_first_bad_leg_witness :
  let good := [[("symbol", JStr "AAPL"); ("quantity", JNum 1); ("instruction", JStr "BUY")]] in
  let bad := [("symbol", JNum 7); ("instruction", JStr "SELL")] in
  forallb Orders.leg_ok good = true
  /\ Orders.leg_ok bad = false
  /\ Orders.build_spread_order Z pretty (good ++ [bad]) "NET_DEBIT" None "NORMAL" "DAY"
     = Raise (ExOther "KeyError: quantity").
Proof.
  intros good bad. split; [reflexivity|]. split; [reflexivity|].
  exact (build_spread_order_first_bad_leg Z pretty good bad [] "NET_DEBIT" None "NORMAL" "DAY"
           eq_refl eq_refl).
Defined.

Lemma build_option_order_vs_equity_witness :
  "orderType" <> "complexOrderStrategyType"
  /\ "orderType" <> "orderLegCollection"
  /\ json_get "orderType"
       (Orders.build_option_order Z pretty "aapl" 10 "BUY_TO_OPEN" "LIMIT" "NORMAL" "DAY"
          (Some 150) None)
     = json_get "orderType"
         (Orders.build_equity_order Z pretty "aapl" 10 "BUY_TO_OPEN" "LIMIT" "NORMAL" "DAY"
            (Some 150) None).
Proof.
  assert (H1 : "orderType" <> "complexOrderStrategyType") by discriminate.
  assert (H2 : "orderType" <> "orderLegCollection") by discriminate.
  split; [exact H1|]. split; [exact H2|].
  exact (proj1 (build_option_order_vs_equity Z pretty "aapl" 10 "BUY_TO_OPEN" "LIMIT" "NORMAL"
                  "DAY" (Some 150) None "orderType" H1 H2)).
Defined.

Section MoreWireFacts.

Variable urljoin : string -> string -> string.
Variable Order : Type.
Variable Order_from_dict : json -> Outcome Order.

(** X26.  [get_all_orders] sends the query parameters [get_orders] sends
    for the same arguments, to the orders path that names no account. *)
Theorem get_all_orders_params session account_number max_results
    from_entered_time to_entered_time status tr tok :
  auth session (token_calls tr) = Return tok ->
  exists req_all req_one,
    snd (Accounts.get_all_orders urljoin Order Order_from_dict session max_results
           from_entered_time to_entered_time status tr)
    = tr ++ [CallGetAccessToken; CallSessionRequest req_all]
    /\ snd (Accounts.get_orders urljoin Order Order_from_dict session account_number max_results
              from_entered_time to_entered_time status tr)
       = tr ++ [CallGetAccessToken; CallSessionRequest req_one]
    /\ req_params req_all = req_params req_one
    /\ req_method req_all = "GET"
    /\ req_url req_all = urljoin BASE_URL "trader/v1/orders".
Proof.
  intros Hauth. unfold Accounts.get_all_orders, Accounts.get_orders, get. cbv zeta.
  rewrite !snd_bind_lift, !(_request_trace_plain urljoin _ _ _ _ _ _ _ Hauth).
  eexists _, _. repeat split; reflexivity.
Qed.

(** X27.  [get_transactions] always sends [startDate] and [endDate] as
    given, empty strings included, and sends [types] and [symbol] exactly
    when the argument is a non-empty string. *)
Theorem get_transactions_params session account_number start_date end_date types symbol tr tok :
  auth session (token_calls tr) = Return tok ->
  exists req ps,
    snd (Accounts.get_transactions urljoin session account_number start_date end_date
           types symbol tr)
    = tr ++ [CallGetAccessToken; CallSessionRequest req]
    /\ req_method req = "GET"
    /\ req_url req
       = urljoin BASE_URL ("trader/v1/accounts/" +:+ account_number +:+ "/transactions")
    /\ req_params req = Some ps
    /\ params_get "startDate" ps = Some (PStr start_date)
    /\ params_get "endDate" ps = Some (PStr end_date)
    /\ forall key arg,
         In (key, arg) [("types", types); ("symbol", symbol)] ->
         params_get key ps
         = match arg with
           | Some s => if String.eqb s "" then None else Some (PStr s)
           | None => None
           end.
Proof.
  intros Hauth. unfold Accounts.get_transactions, get. cbv zeta.
  rewrite (_request_trace_plain urljoin _ _ _ _ _ _ _ Hauth).
  eexists _, _. split; [reflexivity|].
  split; [reflexivity|]. split; [reflexivity|]. split; [reflexivity|].
  unfold set_if_truthy, str_truthy.
  destruct types as [t|]; [destruct (String.eqb t "") eqn:Ht|];
    (destruct symbol as [s|]; [destruct (String.eqb s "") eqn:Hs|]);
    (split; [reflexivity|]); (split; [reflexivity|]);
    intros key arg [Hin | [Hin | []]]; injection Hin as <- <-;
    cbn; rewrite ?Ht, ?Hs; reflexivity.
Qed.

End MoreWireFacts.

Lemma get_all_orders_params_witness :
  let session := test_client (always (Return ok_response)) in
  auth session 0%nat = Return "fake_token"
  /\ exists req,
       snd (Accounts.get_all_orders simple_urljoin json Return session 3000
              None None (Some "FILLED") [])
       = [CallGetAccessToken; CallSessionRequest req]
       /\ req_url req = simple_urljoin BASE_URL "trader/v1/orders".
Proof.
  intros session.
  assert (Hauth : auth session (token_calls []) = Return "fake_token") by reflexivity.
  split; [exact Hauth|].
  destruct (get_all_orders_params simple_urljoin json Return session "HASH" 3000
              None None (Some "FILLED") [] "fake_token" Hauth)
    as (req_all & req_one & Hall & _ & _ & _ & Hurl).
  exists req_all. split; [exact Hall | exact Hurl].
Defined.

Lemma get_transactions_params_witness :
  let session := test_client (always (Return ok_response)) in
  auth session 0%nat = Return "fake_token"
  /\ exists req ps,
       snd (Accounts.get_transactions simple_urljoin session "HASH" "2024-01-01" ""
              None (Some "AAPL") [])
       = [CallGetAccessToken; CallSessionRequest req]
       /\ req_params req = Some ps
       /\ params_get "endDate" ps = Some (PStr "")
       /\ params_get "symbol" ps = Some (PStr "AAPL").
Proof.
  intros session.
  assert (Hauth : auth session (token_calls []) = Return "fake_token") by reflexivity.
  split; [exact Hauth|].
  destruct (get_transactions_params simple_urljoin session "HASH" "2024-01-01" ""
              None (Some "AAPL") [] "fake_token" Hauth)
    as (req & ps & Htr & _ & _ & Hps & _ & Hend & Hopt).
  exists req, ps. split; [exact Htr|]. split; [exact Hps|]. split; [exact Hend|].
  apply (Hopt "symbol" (Some "AAPL")). right. left. reflexivity.
Defined.
